(** * storagetooling data_management.py: reconciliation and batched writes

    A shallow embedding of [src/data_management.py].  Python dictionaries
    used as records are association lists (insertion ordered, as Python
    dicts are); column values are strings.  The relational store is an
    abstract table store executing structured statements; each statement
    may be made to fail by a fault oracle, so that error paths
    ([except ResourceWarning] and uncaught driver errors) are covered. *)

From Stdlib Require Import String Ascii List Bool Arith Lia ZArith.
Import ListNotations.
Open Scope string_scope.
Open Scope list_scope.

(** ** Strings *)

Definition quote : ascii := "'"%char.

(** [c in s] for a one-character string [c]. *)
Fixpoint has_char (c : ascii) (s : string) : bool :=
  match s with
  | EmptyString => false
  | String a s' => if Ascii.eqb a c then true else has_char c s'
  end.

Definition has_quote (s : string) : bool := has_char quote s.

(** [s.replace("'", "''")] *)
Fixpoint double_quotes (s : string) : string :=
  match s with
  | EmptyString => EmptyString
  | String a s' =>
      if Ascii.eqb a quote then String quote (String quote (double_quotes s'))
      else String a (double_quotes s')
  end.

(** How the store reads the text between the two delimiting quotes of a
    T-SQL string literal: a doubled quote stands for one quote.  A lone
    quote ends the literal early; the model reads the statement as one
    that does not parse.  Some such texts parse as another statement in
    T-SQL (an injected [x', [c] = 'y] in a SET list does), so the
    properties below that cover arbitrary values assume values without a
    lone quote; a lone quote is followed to a parse failure only at inputs
    where T-SQL also fails to parse, such as [('bob's-host')]. *)
Fixpoint decode_literal (s : string) : option string :=
  match s with
  | EmptyString => Some EmptyString
  | String a s' =>
      if Ascii.eqb a quote then
        match s' with
        | String b s'' =>
            if Ascii.eqb b quote then
              option_map (String quote) (decode_literal s'')
            else None
        | EmptyString => None
        end
      else option_map (String a) (decode_literal s')
  end.

(** A literal body is well formed when every quote in it is doubled. *)
Definition well_formed_literal (s : string) : bool :=
  match decode_literal s with Some _ => true | None => false end.

Definition lower_ascii (c : ascii) : ascii :=
  let n := nat_of_ascii c in
  if (65 <=? n)%nat && (n <=? 90)%nat then ascii_of_nat (n + 32)%nat else c.

Fixpoint lower (s : string) : string :=
  match s with
  | EmptyString => EmptyString
  | String a s' => String (lower_ascii a) (lower s')
  end.

(** SQL identifiers compare case-insensitively. *)
Definition col_eqb (a b : string) : bool := String.eqb (lower a) (lower b).

Fixpoint digits_of_nat (fuel n : nat) (acc : string) : string :=
  match fuel with
  | O => acc
  | S fuel' =>
      let d := ascii_of_nat (48 + n mod 10)%nat in
      let acc' := String d acc in
      if (n <? 10)%nat then acc' else digits_of_nat fuel' (n / 10)%nat acc'
  end.

(** [str(n)] for a non-negative integer. *)
Definition string_of_nat (n : nat) : string := digits_of_nat (S n) n EmptyString.


(** [s.startswith(p)] *)
Fixpoint starts_with (p s : string) : bool :=
  match p, s with
  | EmptyString, _ => true
  | String a p', String b s' => Ascii.eqb a b && starts_with p' s'
  | String _ _, EmptyString => false
  end.

(** ** Rows *)

(** A Python dict with string keys and string values, in insertion order. *)
Definition Row := list (string * string).

Fixpoint lookup (k : string) (r : Row) : option string :=
  match r with
  | [] => None
  | (k', v) :: r' => if String.eqb k' k then Some v else lookup k r'
  end.

Definition row_eq_dec : forall r1 r2 : Row, {r1 = r2} + {r1 <> r2}.
Proof. decide equality. decide equality; apply string_dec. Defined.

Definition rows_eqb (a b : list Row) : bool :=
  if list_eq_dec row_eq_dec a b then true else false.

(** ** Statements sent to the store *)

(** Every statement the module builds, as the structure of the text it
    concatenates.  Literal bodies are kept exactly as they are spliced
    between the quotes of the statement text. *)
Inductive Stmt :=
  | SInsert (table : string) (cols : list string) (rows : list (list string))
      (* INSERT INTO [dbo].[table] (cols) VALUES ('..',..),\r\n('..',..) *)
  | SUpdate (table : string) (sets : list (string * string))
      (where_col where_val : string)
      (* UPDATE [dbo].[table] SET [c] = 'v',.. WHERE where_col = 'where_val' *)
  | STruncate (table : string)
      (* TRUNCATE TABLE [dbo].[table] *)
  | SSelectAll (table : string)
      (* SELECT * FROM [storagetooling].[dbo].[table] *)
  | SSelectActiveZones
      (* SELECT * FROM [storagetooling].[dbo].[activezones] WHERE RunId =
         '{(storagetooling_tables_cache.run[(len(storagetooling_tables_cache.run)-1)])['ID']}'
         : the suffix is not an f-string and is sent as written *)
  | SSelectRunId (capture : string)
      (* SELECT [ID] FROM [storagetooling] +        .[dbo].[RUN]
         WHERE capturedatetime Like "capture%" : the backslash ending the
         first source line joins the lines inside the f-string *)
  | STracking (label stamp : string).
      (* UPDATE [dbo].[UpdateTracking] SET [label] = "stamp" *)

Definition is_insert_into (t : string) (s : Stmt) : bool :=
  match s with SInsert t' _ _ => String.eqb t t' | _ => false end.


(** ** The store *)

(** A store maps a table name to its rows, in insertion order.  Inserted
    rows receive the identity column [ID] from a counter. *)
Definition Tables := string -> list Row.

Definition set_table (tb : Tables) (t : string) (rows : list Row) : Tables :=
  fun t' => if String.eqb t' t then rows else tb t'.

Fixpoint decode_all (l : list string) : option (list string) :=
  match l with
  | [] => Some []
  | v :: l' =>
      match decode_literal v, decode_all l' with
      | Some d, Some ds => Some (d :: ds)
      | _, _ => None
      end
  end.

Fixpoint new_rows (cols : list string) (nid : nat) (rows : list (list string))
  : option (list Row * nat) :=
  match rows with
  | [] => Some ([], nid)
  | vals :: rows' =>
      match decode_all vals, new_rows cols (S nid) rows' with
      | Some ds, Some (rs, nid') => Some ((("ID", string_of_nat nid) :: combine cols ds) :: rs, nid')
      | _, _ => None
      end
  end.

(** [col] of a row, the column name compared as SQL does. *)
Fixpoint lookup_ci (c : string) (r : Row) : option string :=
  match r with
  | [] => None
  | (k, v) :: r' => if col_eqb k c then Some v else lookup_ci c r'
  end.

Definition set_col (c v : string) (r : Row) : Row :=
  map (fun kv => if col_eqb (fst kv) c then (fst kv, v) else kv) r.

Definition set_cols (sets : list (string * string)) (r : Row) : Row :=
  fold_left (fun r cv => set_col (fst cv) (snd cv) r) sets r.

Definition where_matches (wc wv : string) (r : Row) : bool :=
  match lookup_ci wc r with Some v => String.eqb v wv | None => false end.

(** Executing one statement: the new tables, the new identity counter and
    the rows returned; [None] when the statement fails (a pyodbc error).
    - An INSERT with an empty column list ([INSERT .. () VALUES(..)]) and
      an UPDATE with an empty SET list do not parse.
    - The activezones SELECT sends its suffix as written: the quote before
      [ID] ends the literal and [ID'] follows it, a syntax error.
    - The run-id SELECT reads [FROM [storagetooling] + .[dbo].[RUN]], a
      syntax error.
    - The UpdateTracking UPDATE sets the column to ["stamp"]; the ODBC
      driver connects with QUOTED_IDENTIFIER ON, so ["stamp"] names a
      column, and UpdateTracking has no column named by a timestamp. *)
Definition apply_stmt (s : Stmt) (tb : Tables) (nid : nat)
  : option (Tables * nat * list Row) :=
  match s with
  | SInsert _ [] _ => None
  | SInsert t cols rows =>
      match new_rows cols nid rows with
      | Some (rs, nid') => Some (set_table tb t (tb t ++ rs), nid', [])
      | None => None
      end
  | SUpdate _ [] _ _ => None
  | SUpdate t sets wc wv =>
      match decode_all (map snd sets), decode_literal wv with
      | Some ds, Some wv' =>
          let sets' := combine (map fst sets) ds in
          Some (set_table tb t
                  (map (fun r => if where_matches wc wv' r then set_cols sets' r else r) (tb t)),
                nid, [])
      | _, _ => None
      end
  | STruncate t => Some (set_table tb t [], nid, [])
  | SSelectAll t => Some (tb, nid, tb t)
  | SSelectActiveZones => None
  | SSelectRunId _ => None
  | STracking _ _ => None
  end.

(** ** Exceptions, trace and state *)

Inductive Exc :=
  | ResourceWarning
  | DbError                       (* a pyodbc error raised by the driver *)
  | KeyError (k : string)
  | IndexError
  | TypeError
  | UnboundLocalError
  | ZeroDivisionError
  | SystemExit (msg : string).

Inductive Res (A : Type) :=
  | Ok (a : A)
  | Raise (e : Exc).
Arguments Ok {A} a.
Arguments Raise {A} e.

(** What an observer of the store connection and of the cache sees. *)
Inductive Event :=
  | EvExec (s : Stmt) (ok : bool)
      (* cursor.execute (+ conn.commit); [ok] when it succeeded *)
  | EvReload (t : string)
      (* the cache attribute [t] replaced by a fresh SELECT * *)
  | EvLookup (t keycol key : string) (fresh : bool).
      (* a scan of cache [t] for rows with [keycol] = [key]; [fresh] when
         the cached rows for that key are the store's current ones *)

Record State := mkState {
  st_store : Tables;
  st_next_id : nat;
  st_cache : Tables;              (* storagetooling_tables_cache *)
  st_fault : nat -> option Exc;   (* failure of the n-th statement *)
  st_nexec : nat;
  st_clock : string;              (* __format_current_datetime() *)
  st_trace : list Event
}.

Definition M (A : Type) := State -> Res A * State.

Definition ret {A} (a : A) : M A := fun st => (Ok a, st).

Definition bind {A B} (m : M A) (k : A -> M B) : M B :=
  fun st => match m st with
            | (Ok a, st') => k a st'
            | (Raise e, st') => (Raise e, st')
            end.

Definition raise {A} (e : Exc) : M A := fun st => (Raise e, st).

Notation "x <- c1 ;; c2" := (bind c1 (fun x => c2))
  (at level 61, c1 at next level, right associativity).
Notation "c1 ;; c2" := (bind c1 (fun _ => c2)) (at level 61, right associativity).

(** [try: m except ResourceWarning: h] *)
Definition try_rw {A} (m : M A) (h : M A) : M A :=
  fun st => match m st with
            | (Raise ResourceWarning, st') => h st'
            | r => r
            end.

Definition of_res {A} (r : Res A) : M A :=
  match r with Ok a => ret a | Raise e => raise e end.

Definition emit (ev : Event) : M unit :=
  fun st => (Ok tt, mkState (st_store st) (st_next_id st) (st_cache st) (st_fault st)
                            (st_nexec st) (st_clock st) (st_trace st ++ [ev])).

Definition now : M string := fun st => (Ok (st_clock st), st).

(** [cursor.execute(stmt)] followed by [conn.commit()]. *)
Definition exec (s : Stmt) : M (list Row) :=
  fun st =>
    let n := st_nexec st in
    let fail e := (Raise e, mkState (st_store st) (st_next_id st) (st_cache st) (st_fault st)
                                    (S n) (st_clock st) (st_trace st ++ [EvExec s false])) in
    match st_fault st n with
    | Some e => fail e
    | None =>
        match apply_stmt s (st_store st) (st_next_id st) with
        | Some (tb, nid, out) =>
            (Ok out, mkState tb nid (st_cache st) (st_fault st) (S n) (st_clock st)
                             (st_trace st ++ [EvExec s true]))
        | None => fail DbError
        end
    end.

Definition set_cache (t : string) (rows : list Row) : M unit :=
  fun st => (Ok tt, mkState (st_store st) (st_next_id st) (set_table (st_cache st) t rows)
                            (st_fault st) (st_nexec st) (st_clock st)
                            (st_trace st ++ [EvReload t])).

Definition key_rows (keycol key : string) (rows : list Row) : list Row :=
  filter (fun r => match lookup keycol r with Some v => String.eqb v key | None => false end) rows.

(** [[item for item in cache.t if item[keycol] == key]] *)
Definition cache_find (t keycol key : string) : M (list Row) :=
  fun st =>
    let found := key_rows keycol key (st_cache st t) in
    let fresh := rows_eqb found (key_rows keycol key (st_store st t)) in
    (Ok found, mkState (st_store st) (st_next_id st) (st_cache st) (st_fault st)
                       (st_nexec st) (st_clock st)
                       (st_trace st ++ [EvLookup t keycol key fresh])).

(** [lst[0]] *)
Definition first {A} (l : list A) : M A :=
  match l with x :: _ => ret x | [] => raise IndexError end.

(** [d[k]] *)
Definition get (k : string) (r : Row) : M string :=
  match lookup k r with Some v => ret v | None => raise (KeyError k) end.

(** ** The writers *)

(** [column not in ('datecreated', 'ID')] *)
Definition excluded_col (c : string) : bool :=
  String.eqb c "datecreated" || String.eqb c "ID".

(** The statement built by [insert_data_to_table]: the columns of the
    record but [datecreated] and [ID], each value with its quotes doubled
    when it has one. *)
Definition insert_stmt (table_name : string) (record_dict : Row) : Stmt :=
  let kept := filter (fun kv => negb (excluded_col (fst kv))) record_dict in
  SInsert table_name (map fst kept)
    [map (fun kv => let v := snd kv in if has_quote v then double_quotes v else v) kept].

Definition insert_data_to_table (table_name : string) (record_dict : Row) : M unit :=
  try_rw (exec (insert_stmt table_name record_dict) ;; ret tt) (ret tt).

(** The column list of [insert_data_to_table_batch], from the first record. *)
Definition batch_columns (first_record : Row) : list string :=
  filter (fun c => negb (excluded_col c)) (map fst first_record).

(** The value tuple of one entry: [entry[column]] for each column, spliced
    between quotes as it is. *)
Fixpoint row_values (cols : list string) (entry : Row) : Res (list string) :=
  match cols with
  | [] => Ok []
  | c :: cols' =>
      match lookup c entry with
      | None => Raise (KeyError c)
      | Some v => match row_values cols' entry with
                  | Ok vs => Ok (v :: vs)
                  | Raise e => Raise e
                  end
      end
  end.

(** One flush: execute and commit the accumulated multi-row INSERT. *)
Definition flush (table_name : string) (cols : list string) (acc : list (list string)) : M unit :=
  try_rw (exec (SInsert table_name cols acc) ;; ret tt) (ret tt).

(** The [for entry in record_list] loop: [acc] holds the rows of the
    statement being accumulated and [count] their number. *)
Fixpoint batch_loop (table_name : string) (cols : list string) (block_size : nat)
    (acc : list (list string)) (count : nat) (rs : list Row) : M unit :=
  match rs with
  | [] => if (0 <? count)%nat then flush table_name cols acc else ret tt
  | entry :: rs' =>
      vals <- of_res (row_values cols entry) ;;
      let acc' := acc ++ [vals] in
      let count' := S count in
      if (block_size =? 0)%nat then raise ZeroDivisionError
      else if ((count' mod block_size =? 0)%nat && negb (count' =? 0)%nat) then
        flush table_name cols acc' ;; batch_loop table_name cols block_size [] 0 rs'
      else batch_loop table_name cols block_size acc' count' rs'
  end.

Definition insert_data_to_table_batch (table_name : string) (record_list : list Row)
    (tranaction_block_size : nat) : M unit :=
  match record_list with
  | [] => raise IndexError
  | r0 :: _ => batch_loop table_name (batch_columns r0) tranaction_block_size [] 0 record_list
  end.


Definition __clear_table (table : string) : M bool :=
  try_rw (exec (STruncate table) ;; ret true) (ret false).

(** The query of [__read_sql_tables_to_cache]: [activezones] has its own. *)
Definition read_stmt (table_name : string) : Stmt :=
  if String.eqb table_name "activezones" then SSelectActiveZones else SSelectAll table_name.

(** A failed SELECT caught as ResourceWarning leaves [query_results]
    unbound, and the next line raises. *)
Definition __read_sql_tables_to_cache (table_name : string) : M unit :=
  rows <- try_rw (exec (read_stmt table_name)) (raise UnboundLocalError) ;;
  set_cache table_name rows.

Definition __update_source_refresh_timestamp (data_label : string) : M unit :=
  current_datetime <- now ;;
  try_rw (exec (STracking data_label current_datetime) ;; ret tt) (ret tt).

(** ** Customers *)

(** [__format_customer_insert_data]: one row of the MTEST export. *)
Definition __format_customer_insert_data (customer : Row) : Res Row :=
  match lookup "L" customer, lookup "NAME" customer,
        lookup "ID" customer, lookup "STACKNUMBER" customer with
  | Some l, Some name, Some cid, Some stacknumber =>
      let status := if String.eqb l "Y" then "1" else "0" in
      let customer_name := if has_quote name then double_quotes name else name in
      Ok [("contextid", cid); ("customer", customer_name); ("status", status);
          ("stackid", stacknumber)]
  | None, _, _, _ => Raise (KeyError "L")
  | _, None, _, _ => Raise (KeyError "NAME")
  | _, _, None, _ => Raise (KeyError "ID")
  | _, _, _, None => Raise (KeyError "STACKNUMBER")
  end.

(** [asyncio.gather(..., return_exceptions=True)] keeps failed tasks as
    exception objects in the result list; subscripting one of them later
    raises.  The model raises when the list is used. *)
Fixpoint collect (results : list (Res Row)) : Res (list Row) :=
  match results with
  | [] => Ok []
  | Ok r :: rs => match collect rs with Ok l => Ok (r :: l) | Raise e => Raise e end
  | Raise _ :: _ => Raise TypeError
  end.

Definition update_customer_data (customers : list Row) : M unit :=
  let results := map __format_customer_insert_data customers in
  delete_status_customer <- __clear_table "customers" ;;
  if negb delete_status_customer then
    raise (SystemExit "No update to customers table due to table clear failure.")
  else if (0 <? length results)%nat then
    try_rw (rows <- of_res (collect results) ;;
            insert_data_to_table_batch "customers" rows 250 ;;
            __read_sql_tables_to_cache "customers") (ret tt) ;;
    try_rw (__update_source_refresh_timestamp "customers") (ret tt)
  else ret tt.

(** ** Stacks, webpools and webs *)

(** [for x in l: f(x)] *)
Fixpoint for_each {A} (l : list A) (f : A -> M unit) : M unit :=
  match l with
  | [] => ret tt
  | x :: l' => f x ;; for_each l' f
  end.









(** ** SanNav switchports *)

(** A switchport object from the SanNav API: its string-valued fields and
    its [activeZones] list, absent when the key is missing. *)
Record SwitchPort := mkSwitchPort {
  sp_fields : Row;
  sp_activeZones : option (list string)
}.

(** [d[k] = v]: replaces the value of an existing key in place, appends a
    new key at the end. *)
Fixpoint dict_set (k v : string) (r : Row) : Row :=
  match r with
  | [] => [(k, v)]
  | (k', v') :: r' => if String.eqb k' k then (k', v) :: r' else (k', v') :: dict_set k v r'
  end.

Definition has_key (k : string) (r : Row) : bool :=
  match lookup k r with Some _ => true | None => false end.

(** [sub in s] *)
Fixpoint contains_sub (sub s : string) : bool :=
  match s with
  | EmptyString => starts_with sub s
  | String _ s' => starts_with sub s || contains_sub sub s'
  end.

(** The device-name selection of [__format_sannav_insert_data]
    (lines 251-262), from [remoteDevice] and [remotePort] when present. *)
Definition resolve_device (remoteDevice remotePort : option string) : string :=
  match remoteDevice, remotePort with
  | Some rd, Some rp =>
      if negb (String.eqb rd "") || negb (String.eqb rd "localhost") then rd else rp
  | Some rd, None => if negb (String.eqb rd "") then rd else "none"
  | None, Some rp => if negb (String.eqb rp "") then rp else "none"
  | None, None => "none"
  end.

(** [s[:stop]] with Python's negative and out-of-range stops. *)
Definition py_slice_to (s : string) (stop : Z) : string :=
  let n := Z.of_nat (String.length s) in
  let stop' := if (stop <? 0)%Z then Z.max 0 (n + stop) else Z.min stop n in
  substring 0 (Z.to_nat stop') s.

(** Lines 264-266: [trunk_count = -abs(len(device) - 50); device = device[:trunk_count]]. *)
Definition truncate_device (device : string) : string :=
  if (50 <? String.length device)%nat then
    let trunk_count := (- Z.abs (Z.of_nat (String.length device) - 50))%Z in
    py_slice_to device trunk_count
  else device.

(** The entity type set from [connectedDeviceType]. *)
Definition classify_entitytype (cdt : string) (fields : Row) : Row :=
  if negb (String.eqb cdt "") then
    if String.eqb cdt "Initiator" then dict_set "entitytype" "device" fields
    else if String.eqb cdt "SWITCH" then dict_set "entitytype" "chassis" fields
    else if contains_sub "Target" cdt then dict_set "entitytype" "storage" fields
    else fields
  else fields.

(** The key of the switchport naming the value looked up in an id table. *)
Definition source_label (sannav_id_table : string) : string :=
  if String.eqb sannav_id_table "switch" || String.eqb sannav_id_table "fabric" then
    (sannav_id_table ++ "Name")%string
  else sannav_id_table.

Definition sannav_common_id_tables : list string :=
  ["entitytype"; "fabric"; "health"; "status"; "switch"; "zone"].

(** The id columns of the entity row: [<source_label>id = str(cache row ID)]. *)
Fixpoint resolve_ids (tables : list string) (fields : Row) (row : Row) : M Row :=
  match tables with
  | [] => ret row
  | t :: ts =>
      let label := source_label t in
      v <- get label fields ;;
      search_id_table <- cache_find t "name" v ;;
      item <- first search_id_table ;;
      search_id <- get "ID" item ;;
      resolve_ids ts fields (row ++ [((label ++ "id")%string, search_id)])
  end.

Fixpoint activezone_rows (runid entityid : string) (zones : list string) : M (list Row) :=
  match zones with
  | [] => ret []
  | zone_name :: zs =>
      zone_id_table <- cache_find "zone" "name" zone_name ;;
      item <- first zone_id_table ;;
      zone_id <- get "ID" item ;;
      rest <- activezone_rows runid entityid zs ;;
      ret ([("runid", runid); ("sannaventityid", entityid); ("zoneid", zone_id)] :: rest)
  end.

(** [__format_sannav_insert_data]: the entity row and its activezones rows. *)
Definition __format_sannav_insert_data (sannav_object : SwitchPort) (runid : string)
  : M (Row * list Row) :=
  let fields0 := sp_fields sannav_object in
  cdt <- get "connectedDeviceType" fields0 ;;
  let fields1 := classify_entitytype cdt fields0 in
  let device := truncate_device (resolve_device (lookup "remoteDevice" fields1)
                                                 (lookup "remotePort" fields1)) in
  rnw <- get "remoteNodeWwn" fields1 ;;
  let fields := if String.eqb rnw "" then dict_set "remoteNodeWwn" "none" fields1 else fields1 in
  id <- get "id" fields ;;
  wwn <- get "wwn" fields ;;
  portNumber <- get "portNumber" fields ;;
  slotNumber <- get "slotNumber" fields ;;
  remoteNodeWwn <- get "remoteNodeWwn" fields ;;
  ipAddress <- get "ipAddress" fields ;;
  let base := [("runid", runid); ("id", id); ("wwn", wwn); ("portnumber", portNumber);
               ("slotnumber", slotNumber); ("remotewwn", remoteNodeWwn);
               ("ipaddress", ipAddress); ("devicename", device)] in
  row <- resolve_ids sannav_common_id_tables fields base ;;
  zones <- match sp_activeZones sannav_object with
           | Some zs => ret zs
           | None => raise (KeyError "activeZones")
           end ;;
  az <- activezone_rows runid id zones ;;
  ret (row, az).

(** The defaults [update_sannav_data] adds to every switchport. *)
Definition fill_defaults (item : SwitchPort) : SwitchPort :=
  let f0 := sp_fields item in
  let f1 := if has_key "zoneAlias" f0 then f0 else f0 ++ [("zoneAlias", "none")] in
  let f2 := if has_key "entitytype" f1 then f1 else f1 ++ [("entitytype", "none")] in
  let az := match sp_activeZones item with Some zs => zs | None => ["none"] end in
  let f3 := if has_key "remoteNodeWwn" f2 then f2 else f2 ++ [("remoteNodeWwn", "none")] in
  mkSwitchPort f3 (Some az).

(** Iteration over a Python [set]: each value once.  Python iterates a
    set in hash order; the claims below do not depend on the order. *)
Definition unique_values (l : list string) : list string := nodup string_dec l.

Fixpoint map_get (k : string) (l : list SwitchPort) : M (list string) :=
  match l with
  | [] => ret []
  | x :: l' => v <- get k (sp_fields x) ;; vs <- map_get k l' ;; ret (v :: vs)
  end.

(** Insert [{'name': value}] into [table] when the cache has no such row. *)
Definition ensure_name (table value : string) : M unit :=
  search_table <- cache_find table "name" value ;;
  match search_table with
  | [] => insert_data_to_table table [("name", value)]
  | _ :: _ => ret tt
  end.

Definition update_sannav_id_tables : list string :=
  ["activeZones"; "fabric"; "health"; "status"; "switch"; "zone"].

(** One iteration of [for table in sannav_common_id_tables] of
    [update_sannav_data]. *)
Definition sannav_id_table_step (sannav : list SwitchPort) (table : string) : M unit :=
  if String.eqb table "activeZones" then
    let zones := concat (map (fun r => match sp_activeZones r with
                                       | Some zs => zs | None => [] end) sannav) in
    for_each (unique_values zones) (ensure_name "zone") ;;
    __read_sql_tables_to_cache "zone"
  else
    let source :=
      if String.eqb table "switch" || String.eqb table "fabric" then (table ++ "Name")%string
      else if String.eqb table "zone" then (table ++ "Alias")%string
      else table in
    values <- map_get source sannav ;;
    for_each (unique_values values) (ensure_name table) ;;
    __read_sql_tables_to_cache table.

(** [__get_runid]: insert a run row stamped with the current time and read
    its id back by that stamp. *)
Definition __get_runid : M (list Row) :=
  formatted_datetime <- now ;;
  try_rw (insert_data_to_table "run" [("capturedatetime", formatted_datetime)])
         (raise (SystemExit "ERROR: Creting Run record Run table. Trminating program.")) ;;
  try_rw (exec (SSelectRunId formatted_datetime))
         (raise (SystemExit "Error retrieving ID value for run in Run table. Terminating program.")).

(** A task run under [asyncio.gather(..., return_exceptions=True)]. *)
Definition capture {A} (m : M A) : M (Res A) :=
  fun st => let (r, st') := m st in (Ok r, st').

Fixpoint gather {A} (ms : list (M A)) : M (list (Res A)) :=
  match ms with
  | [] => ret []
  | m :: ms' => r <- capture m ;; rs <- gather ms' ;; ret (r :: rs)
  end.

(** [[d['sannav'] for d in results]]: an exception object in [results]
    is not subscriptable. *)
Fixpoint collect_formatted (results : list (Res (Row * list Row))) : Res (list (Row * list Row)) :=
  match results with
  | [] => Ok []
  | Ok d :: ds => match collect_formatted ds with Ok l => Ok (d :: l) | Raise e => Raise e end
  | Raise _ :: _ => Raise TypeError
  end.

(** [update_sannav_data] up to the two lists it hands to the batch writer
    (lines 1039-1140): the sannaventities rows and the activezones rows. *)
Definition sannav_build (sannav : list SwitchPort) : M (list Row * list Row) :=
  let sannav1 := map fill_defaults sannav in
  for_each update_sannav_id_tables (sannav_id_table_step sannav1) ;;
  get_runid <- __get_runid ;;
  r0 <- first get_runid ;;
  runid <- get "ID" r0 ;;
  results <- gather (map (fun o => __format_sannav_insert_data o runid) sannav1) ;;
  formatted <- of_res (collect_formatted results) ;;
  ret (map fst formatted, concat (map snd formatted)).

(** ** Observations *)

(** The events a computation appends to the trace. *)
Definition run_events {A} (m : M A) (st : State) : list Event :=
  skipn (length (st_trace st)) (st_trace (snd (m st))).

(** A store that executes every statement it receives. *)
Definition no_faults (st : State) : Prop := forall n, st_fault st n = None.

(** Every new event of [m] satisfies [P]. *)
Definition only (P : Event -> Prop) {A} (m : M A) : Prop :=
  forall st, exists evs, st_trace (snd (m st)) = st_trace st ++ evs /\ Forall P evs.

(** An INSERT statement naming neither [ID] nor [datecreated]. *)
Definition writes_no_store_columns (ev : Event) : Prop :=
  match ev with
  | EvExec (SInsert _ cols _) _ => ~ In "ID" cols /\ ~ In "datecreated" cols
  | _ => True
  end.

(** The store accepts a multi-row INSERT when every literal is well formed. *)
Definition rows_accepted (rows : list (list string)) : bool :=
  forallb (fun vals => match decode_all vals with Some _ => true | None => false end) rows.



(** ** A program logic for the reconciliation passes *)


(** The columns of a record [insert_data_to_table] writes. *)
Definition kept_cols (record_dict : Row) : Row :=
  filter (fun kv => negb (excluded_col (fst kv))) record_dict.




Definition quote_free (v : string) : Prop := has_quote v = false.












(** ** Switch ids of the SanNav pass *)

(** [m] changes neither the store, the caches nor the faults. *)
Definition readonly {A} (m : M A) : Prop :=
  forall st, st_store (snd (m st)) = st_store st /\ st_cache (snd (m st)) = st_cache st /\
             st_fault (snd (m st)) = st_fault st /\
             exists evs, st_trace (snd (m st)) = st_trace st ++ evs.

(** ** Concrete stores and inputs *)

Definition empty_tables : Tables := fun _ => [].

(** A store that executes every statement, with its cache loaded from it. *)
Definition clean_state (tb : Tables) (nid : nat) : State :=
  mkState tb nid tb (fun _ => None) 0 "2026-01-01 00:00:00" [].

(** Fifty-one characters: an [X] and five times the ten letters [a..j]. *)
Definition long_device : string :=
  "Xabcdefghijabcdefghijabcdefghijabcdefghijabcdefghij".

(** A customers table holding two rows before the pass. *)
Definition customers_before : Tables :=
  fun t => if String.eqb t "customers" then
             [[("ID", "1"); ("contextid", "10"); ("customer", "Old One"); ("status", "1"); ("stackid", "3")];
              [("ID", "2"); ("contextid", "11"); ("customer", "Old Two"); ("status", "0"); ("stackid", "4")]]
           else [].

(** One MTEST customer record whose [ID] field holds a quote. *)
Definition customer_with_quote : Row :=
  [("L", "Y"); ("NAME", "O'Hara Clinic"); ("ID", "1'2"); ("STACKNUMBER", "7")].



(** A store whose [entitytype] table holds [device], and one switchport
    naming the switch [sw9], which is in no table. *)
Definition sannav_tables : Tables :=
  fun t => if String.eqb t "entitytype" then [[("ID", "1"); ("name", "device")]] else [].

Definition sw_port : SwitchPort :=
  mkSwitchPort
    [("connectedDeviceType", "Initiator"); ("remoteDevice", "host-a"); ("remotePort", "p1");
     ("remoteNodeWwn", "wwn-r"); ("id", "101"); ("wwn", "wwn-1"); ("portNumber", "1");
     ("slotNumber", "0"); ("ipAddress", "10.0.0.1"); ("fabricName", "fab1");
     ("health", "ok"); ("status", "online"); ("switchName", "sw9"); ("zone", "z1");
     ("zoneAlias", "z1")]
    (Some ["z1"]).

(** ** Further code: batch writer, customers, SanNav runs, datetimeoffset, connection *)

Fixpoint chunks_fuel {A} (fuel bs : nat) (l : list A) : list (list A) :=
  match fuel with
  | O => []
  | S f => match l with
           | [] => []
           | _ :: _ => firstn bs l :: chunks_fuel f bs (skipn bs l)
           end
  end.

Definition chunks {A} (bs : nat) (l : list A) : list (list A) := chunks_fuel (length l) bs l.

Definition flush_event (t : string) (cols : list string) (ch : list (list string)) : Event :=
  EvExec (SInsert t cols ch) true.

(** The state after a run that only appended [rs] to table [t]. *)
Definition appended (t : string) (rs : list Row) (nid : nat) (evs : list Event) (st st' : State) : Prop :=
  (forall t', st_store st' t' = if String.eqb t' t then st_store st t ++ rs else st_store st t') /\
  st_next_id st' = nid /\ st_cache st' = st_cache st /\ st_fault st' = st_fault st /\
  st_clock st' = st_clock st /\ st_trace st' = st_trace st ++ evs.

(** A customer record of the MTEST export with its four fields, its id and
    stack number free of quotes. *)
Definition customer_fields (c : Row) (l name cid sn : string) : Prop :=
  lookup "L" c = Some l /\ lookup "NAME" c = Some name /\ lookup "ID" c = Some cid /\
  lookup "STACKNUMBER" c = Some sn.

Definition customer_cols : list string := ["contextid"; "customer"; "status"; "stackid"].

(** The events of the SanNav pass up to the batch writes: inserts into the
    id tables it maintains and into [run], reloads of those id tables,
    the run-id query and cache scans. *)
Definition sannav_id_tables_written : list string := ["zone"; "fabric"; "health"; "status"; "switch"].

Definition sannav_build_event (ev : Event) : Prop :=
  match ev with
  | EvExec (SInsert t _ _) _ => In t ("run" :: sannav_id_tables_written)
  | EvExec (SSelectAll t) _ => In t sannav_id_tables_written
  | EvReload t => In t sannav_id_tables_written
  | EvExec (SSelectRunId _) _ => True
  | EvExec _ _ => False
  | EvLookup _ _ _ _ => True
  end.

Fixpoint digits_of_Z (fuel : nat) (n : Z) (acc : string) : string :=
  match fuel with
  | O => acc
  | S fuel' =>
      let acc' := String (ascii_of_nat (48 + Z.to_nat (n mod 10))) acc in
      if (n <? 10)%Z then acc' else digits_of_Z fuel' (n / 10)%Z acc'
  end.

(** [str(n)] for a Python int. *)
Definition str_int (z : Z) : string :=
  let s := digits_of_Z (S (Z.to_nat (Z.log2 (Z.abs z)))) (Z.abs z) EmptyString in
  if (z <? 0)%Z then ("-" ++ s)%string else s.

Definition byte_val (b : Byte.byte) : Z := Z.of_N (Byte.to_N b).

(** Format characters [h] and [I] of [struct], little-endian ([<]). *)
Definition int16_le (lo hi : Byte.byte) : Z :=
  let u := (byte_val lo + 256 * byte_val hi)%Z in
  if (u <? 32768)%Z then u else (u - 65536)%Z.

Definition uint32_le (b0 b1 b2 b3 : Byte.byte) : Z :=
  (byte_val b0 + 256 * byte_val b1 + 65536 * byte_val b2 + 16777216 * byte_val b3)%Z.

(** [struct.unpack("<6hI2h", value)]: [None] is the [struct.error] raised
    for a buffer that is not 20 bytes long. *)
Definition unpack_6hI2h (v : list Byte.byte) : option (list Z) :=
  match v with
  | [a0; a1; b0; b1; c0; c1; d0; d1; e0; e1; f0; f1; g0; g1; g2; g3; h0; h1; i0; i1] =>
      Some [int16_le a0 a1; int16_le b0 b1; int16_le c0 c1; int16_le d0 d1; int16_le e0 e1;
            int16_le f0 f1; uint32_le g0 g1 g2 g3; int16_le h0 h1; int16_le i0 i1]
  | _ => None
  end.

(** [__handle_datetimeoffset]: the backslash ending the first line of the
    f-string continues it, so the text after [" +"] is the eight spaces
    indenting the second line. *)
Definition __handle_datetimeoffset (date_time_offset_value : list Byte.byte) : option string :=
  match unpack_6hI2h date_time_offset_value with
  | Some (c0 :: c1 :: c2 :: c3 :: c4 :: c5 :: c6 :: _) =>
      Some (str_int c0 ++ "-" ++ str_int c1 ++ "-" ++ str_int c2 ++ " +" ++ "        " ++
            str_int c3 ++ ":" ++ str_int c4 ++ ":" ++ str_int c5 ++ "." ++ str_int c6)%string
  | _ => None
  end.

(** [struct.pack("<6hI2h", ...)], the encoding the store uses. *)
Definition byte_of_Z (z : Z) : Byte.byte :=
  match Byte.of_N (Z.to_N (z mod 256)) with Some b => b | None => Byte.x00 end.

Definition pack_int16 (z : Z) : list Byte.byte := [byte_of_Z z; byte_of_Z (z / 256)].

Definition pack_uint32 (z : Z) : list Byte.byte :=
  [byte_of_Z z; byte_of_Z (z / 256); byte_of_Z (z / 65536); byte_of_Z (z / 16777216)].

Definition pack_6hI2h (year month day hour minute second : Z) (fraction : Z)
    (tz_hour tz_minute : Z) : list Byte.byte :=
  pack_int16 year ++ pack_int16 month ++ pack_int16 day ++ pack_int16 hour ++
  pack_int16 minute ++ pack_int16 second ++ pack_uint32 fraction ++
  pack_int16 tz_hour ++ pack_int16 tz_minute.

Definition int16_range (z : Z) : Prop := (-32768 <= z < 32768)%Z.

(** [Default_Sql_Connection_Values["Trusted_Connection"]] *)
Definition default_trusted_connection : string := "yes".

(** [__connect_ms_sql]: the lines it prints and the connection, named by
    the connection string [pyodbc.connect] receives; [connect_fault] is
    the exception [pyodbc.connect] raises, if any.  When it raises
    [ResourceWarning], [sql_connection] is unbound at the next line. *)
Definition __connect_ms_sql (username password db_server database driver trust_certificates : string)
    (connect_fault : option Exc) : list string * Res string :=
  let use_current := String.eqb username "" || String.eqb password "" in
  let trusted_connection := if use_current then default_trusted_connection else "no" in
  let out1 := if use_current then ["Using trusted connection and current user credentials"] else [] in
  let connect_str :=
    if String.eqb trusted_connection "yes" then
      ("Driver=" ++ driver ++ ";Server=" ++ db_server ++ ";Database=" ++ database ++ ";" ++
       "Trusted_Connection=" ++ trusted_connection ++ ";TrustServerCertificate=" ++ trust_certificates)%string
    else
      ("Driver=" ++ driver ++ ";Server=" ++ db_server ++ ";Database=" ++ database ++ ";" ++
       "UID=" ++ username ++ ";PWD=" ++ password ++ ";TrustServerCertificate=" ++ trust_certificates)%string in
  let out2 := out1 ++ [("Connection string used for connecting: " ++ connect_str)%string] in
  match connect_fault with
  | None => (out2, Ok connect_str)
  | Some ResourceWarning => (out2 ++ ["ERROR: MS SQL connection negotiation issue"], Raise UnboundLocalError)
  | Some e => (out2, Raise e)
  end.

(** The credential selection at the start of [update_data_from_sources];
    [environ] is [os.environ]. *)
Definition source_credentials (automated : bool) (environ : Row) (username password : string)
  : Res (string * string) :=
  if automated then
    match lookup "WinUsername" environ with
    | Some u =>
        match lookup "WinPassword" environ with
        | Some p => Ok (u, p)
        | None => Raise (SystemExit ("No password is set in WinPassword for user: " ++ u ++
                                     ". Terminating function update_data_from_sources.")%string)
        end
    | None => Ok (username, password)
    end
  else Ok (username, password).

(** [update_data_from_sources] up to the connection it opens. *)
Definition open_connection (automated : bool) (environ : Row)
    (username password db_server database driver trust_certificates : string)
    (connect_fault : option Exc) : list string * Res string :=
  match source_credentials automated environ username password with
  | Ok (u, p) => __connect_ms_sql u p db_server database driver trust_certificates connect_fault
  | Raise e => ([], Raise e)
  end.

Definition Storage_Id_Tables : list string :=
  ["entitytype"; "fabric"; "health"; "run"; "stacks"; "status"; "switch"; "webpools"; "zone"].

Definition Storage_Core_Tables : list string := ["activezones"; "customers"; "webs"].

(** The two cache-loading loops of [update_data_from_sources], each read
    under [except ResourceWarning]. *)
Definition load_table_caches : M unit :=
  for_each Storage_Id_Tables (fun table => try_rw (__read_sql_tables_to_cache table) (ret tt)) ;;
  for_each Storage_Core_Tables (fun table => try_rw (__read_sql_tables_to_cache table) (ret tt)).

Definition abc_records : list Row := [[("name", "a")]; [("name", "b")]; [("name", "c")]].

(** A store holding every id-table row [sw_port] names. *)
Definition sannav_ready_tables : Tables :=
  fun t => if String.eqb t "entitytype" then [[("ID", "1"); ("name", "device")]]
           else if String.eqb t "fabric" then [[("ID", "2"); ("name", "fab1")]]
           else if String.eqb t "health" then [[("ID", "3"); ("name", "ok")]]
           else if String.eqb t "status" then [[("ID", "4"); ("name", "online")]]
           else if String.eqb t "switch" then [[("ID", "5"); ("name", "sw9")]]
           else if String.eqb t "zone" then [[("ID", "6"); ("name", "z1")]]
           else [].

(** A store whose [run] table already holds a run stamped at the clock of
    [clean_state]. *)
Definition earlier_run_tables : Tables :=
  fun t => if String.eqb t "run" then [[("ID", "3"); ("capturedatetime", "2026-01-01 00:00:00")]]
           else [].

(** The entity row [__format_sannav_insert_data] builds for [sw_port]. *)
Definition sw_port_row : Row :=
  [("runid", "7"); ("id", "101"); ("wwn", "wwn-1"); ("portnumber", "1"); ("slotnumber", "0");
   ("remotewwn", "wwn-r"); ("ipaddress", "10.0.0.1"); ("devicename", "host-a");
   ("entitytypeid", "1"); ("fabricNameid", "2"); ("healthid", "3"); ("statusid", "4");
   ("switchNameid", "5"); ("zoneid", "6")].

(** ** Generic lemmas *)

Lemma run_events_eq {A} (m : M A) st evs :
  st_trace (snd (m st)) = st_trace st ++ evs -> run_events m st = evs.
Proof.
  unfold run_events; intros ->. rewrite skipn_app, skipn_all, Nat.sub_diag; reflexivity.
Qed.

Lemma only_ret P {A} (a : A) : only P (ret a).
Proof. intros st; exists []; rewrite app_nil_r; auto. Qed.

Lemma only_raise P {A} e : only P (@raise A e).
Proof. intros st; exists []; rewrite app_nil_r; auto. Qed.

Lemma only_bind P {A B} (m : M A) (k : A -> M B) :
  only P m -> (forall a, only P (k a)) -> only P (bind m k).
Proof.
  intros Hm Hk st; unfold bind.
  destruct (Hm st) as [e1 [H1 F1]]; destruct (m st) as [[a|e] st1]; simpl in *.
  - destruct (Hk a st1) as [e2 [H2 F2]]. exists (e1 ++ e2).
    rewrite H2, H1, app_assoc; split; [reflexivity|]. apply Forall_app; auto.
  - exists e1; auto.
Qed.

Lemma only_try_rw P {A} (m h : M A) : only P m -> only P h -> only P (try_rw m h).
Proof.
  intros Hm Hh st; unfold try_rw.
  destruct (Hm st) as [e1 [H1 F1]]; destruct (m st) as [[a|e] st1]; simpl in *.
  - exists e1; auto.
  - destruct e; try (exists e1; auto; fail).
    destruct (Hh st1) as [e2 [H2 F2]]; exists (e1 ++ e2).
    rewrite H2, H1, app_assoc; split; [reflexivity|]; apply Forall_app; auto.
Qed.

Lemma only_of_res P {A} (r : Res A) : only P (of_res r).
Proof. destruct r; [apply only_ret|apply only_raise]. Qed.

Lemma only_exec (P : Event -> Prop) s :
  (forall b, P (EvExec s b)) -> only P (exec s).
Proof.
  intros HP st; unfold exec.
  destruct (st_fault st (st_nexec st));
    [|destruct (apply_stmt s (st_store st) (st_next_id st)) as [[[tb nid] out]|]];
    simpl; eexists; split; try reflexivity; repeat constructor; apply HP.
Qed.

Lemma only_weaken (P Q : Event -> Prop) {A} (m : M A) :
  (forall ev, P ev -> Q ev) -> only P m -> only Q m.
Proof.
  intros HPQ Hm st; destruct (Hm st) as [evs [H F]]; exists evs; split; auto.
  eapply Forall_impl; eauto.
Qed.

Lemma only_set_cache (P : Event -> Prop) t rows : P (EvReload t) -> only P (set_cache t rows).
Proof. intros HP st; eexists; split; [reflexivity|]; repeat constructor; exact HP. Qed.

Lemma only_now P : only P now.
Proof. intros st; exists []; rewrite app_nil_r; auto. Qed.

Lemma only_cache_find (P : Event -> Prop) t kc k :
  (forall b, P (EvLookup t kc k b)) -> only P (cache_find t kc k).
Proof. intros HP st; eexists; split; [reflexivity|]; repeat constructor; apply HP. Qed.

Lemma only_get P k r : only P (get k r).
Proof. unfold get; destruct (lookup k r); [apply only_ret|apply only_raise]. Qed.

Lemma only_first P {A} (l : list A) : only P (first l).
Proof. destruct l; [apply only_raise|apply only_ret]. Qed.

Lemma only_for_each P {A} (l : list A) (f : A -> M unit) :
  (forall x, In x l -> only P (f x)) -> only P (for_each l f).
Proof.
  induction l as [|x l IH]; intros Hf; simpl; [apply only_ret|].
  apply only_bind; [apply Hf; left; reflexivity|intros _; apply IH; intros y Hy; apply Hf; right; exact Hy].
Qed.

Lemma only_insert_data_to_table P t r :
  (forall b, P (EvExec (insert_stmt t r) b)) -> only P (insert_data_to_table t r).
Proof.
  intros HP; unfold insert_data_to_table.
  apply only_try_rw; [apply only_bind; [apply only_exec, HP|intros; apply only_ret]|apply only_ret].
Qed.

Lemma only_read_cache (P : Event -> Prop) t :
  (forall b, P (EvExec (read_stmt t) b)) -> P (EvReload t) ->
  only P (__read_sql_tables_to_cache t).
Proof.
  intros H1 H2; unfold __read_sql_tables_to_cache.
  apply only_bind; [apply only_try_rw; [apply only_exec, H1|apply only_raise]|].
  intros; apply only_set_cache, H2.
Qed.

Lemma only_timestamp (P : Event -> Prop) l :
  (forall s b, P (EvExec (STracking l s) b)) -> only P (__update_source_refresh_timestamp l).
Proof.
  intros HP; unfold __update_source_refresh_timestamp.
  apply only_bind; [apply only_now|intros s].
  apply only_try_rw; [apply only_bind; [apply only_exec; intros; apply HP|intros; apply only_ret]
                     |apply only_ret].
Qed.

Lemma only_run_events P {A} (m : M A) st ev :
  only P m -> In ev (run_events m st) -> P ev.
Proof.
  intros Hm Hin; destruct (Hm st) as [evs [H F]].
  rewrite (run_events_eq m st evs H) in Hin. eapply Forall_forall; eauto.
Qed.

Lemma run_events_bind_ok {A B} (m : M A) (k : A -> M B) st a st1 :
  only (fun _ => True) m -> only (fun _ => True) (k a) ->
  m st = (Ok a, st1) ->
  run_events (bind m k) st = run_events m st ++ run_events (k a) st1.
Proof.
  intros Hm Hk Hst.
  destruct (Hm st) as [e1 [H1 _]]; destruct (Hk st1) as [e2 [H2 _]].
  rewrite Hst in H1; simpl in H1.
  rewrite (run_events_eq m st e1) by (rewrite Hst; exact H1).
  rewrite (run_events_eq (k a) st1 e2 H2).
  apply run_events_eq. unfold bind; rewrite Hst, H2, H1, app_assoc; reflexivity.
Qed.

(** ** Literals *)

Lemma decode_double_quotes v : decode_literal (double_quotes v) = Some v.
Proof.
  induction v as [|a v IH]; simpl; [reflexivity|].
  destruct (Ascii.eqb a quote) eqn:E.
  - apply Ascii.eqb_eq in E; subst a; simpl. rewrite IH; reflexivity.
  - simpl. rewrite E, IH; reflexivity.
Qed.

Lemma decode_no_quote v : has_quote v = false -> decode_literal v = Some v.
Proof.
  unfold has_quote; induction v as [|a v IH]; simpl; [reflexivity|].
  destruct (Ascii.eqb a quote) eqn:E; [discriminate|].
  intros H; rewrite IH by exact H; reflexivity.
Qed.

(** What [insert_data_to_table] splices between quotes decodes back to
    the value of the record. *)
Lemma decode_insert_value v :
  decode_literal (if has_quote v then double_quotes v else v) = Some v.
Proof.
  destruct (has_quote v) eqn:E; [apply decode_double_quotes|apply decode_no_quote; exact E].
Qed.

(** ** The batch writer *)

Lemma only_flush t cols acc :
  only (fun ev => exists acc' b, ev = EvExec (SInsert t cols acc') b) (flush t cols acc).
Proof.
  unfold flush; apply only_try_rw; [apply only_bind; [apply only_exec; eauto|intros; apply only_ret]
                                   |apply only_ret].
Qed.

Lemma only_batch_loop t cols bs rs : forall acc c,
  only (fun ev => exists acc' b, ev = EvExec (SInsert t cols acc') b)
       (batch_loop t cols bs acc c rs).
Proof.
  induction rs as [|e rs IH]; intros acc c; simpl.
  - destruct (0 <? c)%nat; [apply only_flush|apply only_ret].
  - apply only_bind; [apply only_of_res|intros vals].
    destruct (bs =? 0)%nat; [apply only_raise|].
    destruct (_ && _); [apply only_bind; [apply only_flush|intros; apply IH]|apply IH].
Qed.

Lemma batch_columns_ok r0 : ~ In "ID" (batch_columns r0) /\ ~ In "datecreated" (batch_columns r0).
Proof.
  unfold batch_columns; split; intros H; apply filter_In in H; destruct H as [_ H];
    vm_compute in H; discriminate.
Qed.

Lemma insert_stmt_columns_ok t r :
  writes_no_store_columns (EvExec (insert_stmt t r) true) /\
  writes_no_store_columns (EvExec (insert_stmt t r) false).
Proof.
  assert (Hc : forall c, In c (map fst (filter (fun kv => negb (excluded_col (fst kv))) r)) ->
                         excluded_col c = false).
  { intros c Hin. apply in_map_iff in Hin. destruct Hin as [[k v] [<- Hin]].
    apply filter_In in Hin; destruct Hin as [_ Hin]; simpl in *.
    destruct (excluded_col k); [discriminate|reflexivity]. }
  unfold insert_stmt; simpl; split; split; intros Hin; apply Hc in Hin; vm_compute in Hin;
    discriminate.
Qed.

Lemma new_rows_accepted cols acc : forall nid,
  rows_accepted acc = match new_rows cols nid acc with Some _ => true | None => false end.
Proof.
  induction acc as [|vals acc IH]; intros nid; [reflexivity|]. simpl.
  destruct (decode_all vals); [|reflexivity]. simpl.
  rewrite (IH (S nid)). destruct (new_rows cols (S nid) acc) as [[? ?]|]; reflexivity.
Qed.

Lemma flush_no_faults t cols acc st :
  no_faults st -> cols <> [] ->
  exists st', flush t cols acc st =
                (if rows_accepted acc then Ok tt else Raise DbError, st') /\
              st_trace st' = st_trace st ++ [EvExec (SInsert t cols acc) (rows_accepted acc)] /\
              no_faults st'.
Proof.
  intros Hnf Hc. unfold flush, try_rw, bind, exec, ret. rewrite (Hnf (st_nexec st)).
  destruct cols as [|c cols']; [congruence|].
  simpl. rewrite (new_rows_accepted (c :: cols') acc (st_next_id st)).
  destruct (new_rows (c :: cols') (st_next_id st) acc) as [[rs nid]|];
    (eexists; split; [reflexivity|]; split; [reflexivity|exact Hnf]).
Qed.

(** Filling the open statement up to the block size flushes it and starts
    a new one. *)
Lemma batch_loop_fill t cols bs : forall rs vals rest acc c st,
  Forall2 (fun e v => row_values cols e = Ok v) rs vals ->
  (c + length rs = bs)%nat -> (c < bs)%nat ->
  batch_loop t cols bs acc c (rs ++ rest) st =
  bind (flush t cols (acc ++ vals)) (fun _ => batch_loop t cols bs [] 0 rest) st.
Proof.
  induction rs as [|e rs IH]; intros vals rest acc c st HF Hlen Hlt; simpl in Hlen; [lia|].
  inversion HF as [|e' v rs' vals' Hv HF']; subst e' rs' vals. simpl.
  unfold bind at 1; rewrite Hv; simpl.
  destruct (bs =? 0)%nat eqn:Hbs; [apply Nat.eqb_eq in Hbs; lia|].
  destruct rs as [|e2 rs2].
  - inversion HF'; subst vals'. simpl in Hlen.
    replace (S c mod bs =? 0)%nat with true
      by (symmetry; apply Nat.eqb_eq; replace (S c) with bs by lia; apply Nat.Div0.mod_same).
    replace (S c =? 0)%nat with false by reflexivity. reflexivity.
  - replace (S c mod bs =? 0)%nat with false
      by (symmetry; apply Nat.eqb_neq; rewrite Nat.mod_small by (simpl in Hlen; lia); lia).
    rewrite Bool.andb_false_l.
    rewrite (IH vals' rest (acc ++ [v]) (S c) st HF') by (simpl in *; lia).
    rewrite <- app_assoc; reflexivity.
Qed.

Lemma batch_loop_empty t cols bs st : batch_loop t cols bs [] 0 [] st = (Ok tt, st).
Proof. reflexivity. Qed.

(** ** C4: batch boundaries *)

Lemma rows_accepted_quote_free (vals : list (list string)) :
  Forall (Forall quote_free) vals -> rows_accepted vals = true.
Proof.
  induction 1 as [|v vs Hv _ IH]; [reflexivity|]. unfold rows_accepted in *; simpl.
  rewrite IH, andb_true_r.
  assert (H : decode_all v = Some v).
  { induction Hv as [|a l Ha _ IHl]; [reflexivity|]. simpl. rewrite (decode_no_quote a Ha), IHl.
    reflexivity. }
  rewrite H. reflexivity.
Qed.

(** C4, counterexample: 250 records holding only an [ID].  The column
    list is empty, the one statement sent, [INSERT INTO [dbo].[webs] ()
    VALUES ..], does not parse, and no row is committed. *)
Lemma batch_boundary_no_columns :
  run_events (insert_data_to_table_batch "webs" (repeat [("ID", "9")] 250) 250)
    (clean_state empty_tables 1) = [EvExec (SInsert "webs" [] (repeat [] 250)) false] /\
  fst (insert_data_to_table_batch "webs" (repeat [("ID", "9")] 250) 250
         (clean_state empty_tables 1)) = Raise DbError.
Proof. split; vm_compute; reflexivity. Qed.

(** C4, amended.  On a store that executes what it can parse, with the
    default block size of 250, for records whose first record has a column
    besides [ID] and [datecreated], all carrying that record's columns with
    values free of single quotes: a list of 250 records is written by
    exactly one committed multi-row INSERT holding all 250 value rows in
    input order, and a list of 251 records by two committed INSERTs,
    holding the first 250 rows and the last row. *)
Theorem batch_boundary_250 (t : string) (rs : list Row) (vals : list (list string))
    (st : State) (Hnf : no_faults st) (Hcols : batch_columns (hd [] rs) <> [])
    (Hvals : Forall2 (fun e v => row_values (batch_columns (hd [] rs)) e = Ok v) rs vals)
    (Hq : Forall (Forall quote_free) vals) :
  (length rs = 250 ->
     fst (insert_data_to_table_batch t rs 250 st) = Ok tt /\
     run_events (insert_data_to_table_batch t rs 250) st =
     [EvExec (SInsert t (batch_columns (hd [] rs)) vals) true]) /\
  (length rs = 251 ->
     length (firstn 250 vals) = 250 /\ length (skipn 250 vals) = 1 /\
     fst (insert_data_to_table_batch t rs 250 st) = Ok tt /\
     run_events (insert_data_to_table_batch t rs 250) st =
     [EvExec (SInsert t (batch_columns (hd [] rs)) (firstn 250 vals)) true;
      EvExec (SInsert t (batch_columns (hd [] rs)) (skipn 250 vals)) true]).
Proof.
  pose proof (Forall2_length Hvals) as Hlv.
  split; intros Hlen.
  - destruct rs as [|r0 rs']; [discriminate|]. simpl hd in Hvals, Hcols |- *.
    pose proof (rows_accepted_quote_free vals Hq) as Hacc.
    pose proof (batch_loop_fill t (batch_columns r0) 250 (r0 :: rs') vals [] [] 0 st Hvals)
      as Hfill.
    rewrite app_nil_r in Hfill.
    destruct (flush_no_faults t (batch_columns r0) ([] ++ vals) st Hnf Hcols) as [st' [Hf [Htr _]]].
    simpl app in *. rewrite Hacc in Hf, Htr.
    assert (E : insert_data_to_table_batch t (r0 :: rs') 250 st = (Ok tt, st')).
    { unfold insert_data_to_table_batch; cbv beta iota. rewrite Hfill by lia.
      unfold bind; rewrite Hf. reflexivity. }
    split; [rewrite E; reflexivity|]. apply run_events_eq. rewrite E. exact Htr.
  - destruct rs as [|r0 rs']; [discriminate|]. simpl hd in Hvals, Hcols |- *.
    set (cols := batch_columns r0) in *.
    rewrite <- (firstn_skipn 250 (r0 :: rs')) in Hvals.
    apply Forall2_app_inv_l in Hvals. destruct Hvals as [vA [vB [HA [HB ->]]]].
    pose proof (Forall2_length HA) as HlA. pose proof (Forall2_length HB) as HlB.
    rewrite length_firstn in HlA.
    assert (Hls : length (skipn 250 (r0 :: rs')) = 1) by (rewrite length_skipn; lia).
    simpl length in HlA.
    destruct (skipn 250 (r0 :: rs')) as [|e [|e' rest]] eqn:Eskip; simpl in Hls; try lia.
    destruct vB as [|x [|x' vB]]; simpl in HlB; try lia.
    inversion HB as [|e1 x1 l1 l1' Hx _]; subst e1 x1 l1 l1'.
    assert (HlA' : length vA = 250)
      by (rewrite <- HlA; apply Nat.min_l; simpl in Hlen; lia).
    assert (HvA : firstn 250 (vA ++ [x]) = vA)
      by (rewrite <- HlA', firstn_app, firstn_all, Nat.sub_diag; apply app_nil_r).
    assert (HvB : skipn 250 (vA ++ [x]) = [x])
      by (rewrite <- HlA', skipn_app, skipn_all, Nat.sub_diag; reflexivity).
    apply Forall_app in Hq. destruct Hq as [HqA Hqx].
    pose proof (rows_accepted_quote_free vA HqA) as HaccA.
    pose proof (rows_accepted_quote_free [x] Hqx) as Haccx.
    rewrite HvA, HvB. split; [lia|]. split; [reflexivity|].
    destruct (flush_no_faults t cols ([] ++ vA) st Hnf Hcols) as [st' [Hf [Htr Hnf']]].
    destruct (flush_no_faults t cols [x] st' Hnf' Hcols) as [st'' [Hf' [Htr' _]]].
    rewrite Haccx in Hf', Htr'. simpl app in Hf, Htr. rewrite HaccA in Hf, Htr.
    assert (E : insert_data_to_table_batch t (r0 :: rs') 250 st = (Ok tt, st'')).
    { unfold insert_data_to_table_batch; cbv beta iota. fold cols.
      rewrite <- (firstn_skipn 250 (r0 :: rs')), Eskip.
      rewrite (batch_loop_fill t cols 250 _ vA [e] [] 0 st HA)
        by (try rewrite length_firstn, Nat.min_l by lia; lia).
      simpl app. unfold bind at 1; rewrite Hf.
      cbn [batch_loop]. unfold bind. rewrite Hx. unfold of_res, ret at 1. cbv beta iota.
      change (250 =? 0)%nat with false.
      change ((1 mod 250 =? 0)%nat && negb (1 =? 0)%nat) with false.
      change (0 <? 1)%nat with true. cbv iota beta. exact Hf'. }
    split; [rewrite E; reflexivity|].
    apply run_events_eq. rewrite E. cbn [snd]. rewrite Htr', Htr, <- app_assoc. reflexivity.
Qed.

Lemma batch_boundary_250_witness :
  no_faults (clean_state empty_tables 1) /\
  batch_columns (hd [] (repeat [("name", "x")] 250)) <> [] /\
  Forall2 (fun e v => row_values (batch_columns (hd [] (repeat [("name", "x")] 250))) e = Ok v)
    (repeat [("name", "x")] 250) (repeat ["x"] 250) /\
  Forall (Forall quote_free) (repeat ["x"] 250) /\
  run_events (insert_data_to_table_batch "webs" (repeat [("name", "x")] 250) 250)
    (clean_state empty_tables 1) =
  [EvExec (SInsert "webs" ["name"] (repeat ["x"] 250)) true].
Proof.
  assert (Hnf : no_faults (clean_state empty_tables 1)) by (intros n; reflexivity).
  assert (Hc : batch_columns (hd [] (repeat [("name", "x")] 250)) <> []) by discriminate.
  assert (HF : Forall2 (fun e v => row_values (batch_columns (hd [] (repeat [("name", "x")] 250))) e = Ok v)
                 (repeat [("name", "x")] 250) (repeat ["x"] 250))
    by (simpl; repeat constructor).
  assert (Hq : Forall (Forall quote_free) (repeat ["x"] 250))
    by (apply Forall_forall; intros v Hv; apply repeat_spec in Hv; subst v; repeat constructor).
  split; [exact Hnf|]. split; [exact Hc|]. split; [exact HF|]. split; [exact Hq|].
  destruct (batch_boundary_250 "webs" _ _ _ Hnf Hc HF Hq) as [H250 _].
  destruct (H250 eq_refl) as [_ He]. rewrite He. reflexivity.
Defined.

(** ** C10: store-assigned columns *)

(** C10.  Whatever record or record list is passed, the INSERT statements
    built by [insert_data_to_table] and [insert_data_to_table_batch] never
    name the columns [ID] or [datecreated]. *)
Theorem insert_never_writes_id_or_datecreated (table : string) (record : Row)
    (recs : list Row) (bs : nat) (st : State) :
  (forall ev, In ev (run_events (insert_data_to_table table record) st) ->
              writes_no_store_columns ev) /\
  (forall ev, In ev (run_events (insert_data_to_table_batch table recs bs) st) ->
              writes_no_store_columns ev).
Proof.
  split; intros ev; apply only_run_events.
  - apply only_insert_data_to_table; intros [|];
      [apply (proj1 (insert_stmt_columns_ok _ _))|apply (proj2 (insert_stmt_columns_ok _ _))].
  - unfold insert_data_to_table_batch; destruct recs as [|r0 rs]; [apply only_raise|].
    eapply only_weaken; [|apply only_batch_loop].
    intros ev' [acc' [b ->]]; apply batch_columns_ok.
Qed.

(** ** C1: quoting of values *)

(** C1.  The batch writer splices values between quotes as they are: a
    device name holding a quote gives an INSERT whose literal is not well
    formed, the store rejects it and the error propagates, while the
    single-row writer doubles the quote and its INSERT is accepted. *)
Theorem batch_insert_unescaped_quote :
  well_formed_literal "bob's-host" = false /\
  run_events (insert_data_to_table_batch "sannaventities" [[("devicename", "bob's-host")]] 250)
    (clean_state empty_tables 1) =
  [EvExec (SInsert "sannaventities" ["devicename"] [["bob's-host"]]) false] /\
  fst (insert_data_to_table_batch "sannaventities" [[("devicename", "bob's-host")]] 250
         (clean_state empty_tables 1)) = Raise DbError /\
  run_events (insert_data_to_table "sannaventities" [("devicename", "bob's-host")])
    (clean_state empty_tables 1) =
  [EvExec (SInsert "sannaventities" ["devicename"] [["bob''s-host"]]) true].
Proof. repeat split; vm_compute; reflexivity. Qed.

(** ** C2: device-name truncation *)

Lemma substring_0_length (n : nat) (s : string) :
  (n <= String.length s)%nat -> String.length (substring 0 n s) = n.
Proof.
  revert n; induction s as [|a s IH]; intros [|n] Hn; simpl in *; try reflexivity; try lia.
  rewrite IH by lia; reflexivity.
Qed.

(** C2, counterexample: for a 51-character name the stored value is not
    its last 50 characters. *)
Lemma truncate_device_not_suffix :
  String.length long_device = 51 /\
  truncate_device long_device <> substring (String.length long_device - 50) 50 long_device.
Proof. split; [reflexivity|]. vm_compute. discriminate. Qed.

(** C2, amended: a device name longer than 50 characters is stored as its
    first 50 characters ([device[:-(len(device) - 50)]]). *)
Theorem truncate_device_first_50 (d : string) (Hlong : (50 < String.length d)%nat) :
  truncate_device d = substring 0 50 d /\ String.length (truncate_device d) = 50.
Proof.
  assert (E : truncate_device d = substring 0 50 d).
  { unfold truncate_device, py_slice_to.
    replace (50 <? String.length d)%nat with true by (symmetry; apply Nat.ltb_lt; exact Hlong).
    replace ((- Z.abs (Z.of_nat (String.length d) - 50) <? 0)%Z) with true
      by (symmetry; apply Z.ltb_lt; lia).
    replace (Z.max 0 (Z.of_nat (String.length d) + - Z.abs (Z.of_nat (String.length d) - 50)))
      with 50%Z by lia.
    reflexivity. }
  split; [exact E|]. rewrite E. apply substring_0_length; lia.
Qed.

Lemma truncate_device_first_50_witness :
  (50 < String.length long_device)%nat /\
  truncate_device long_device = substring 0 50 long_device /\
  String.length (truncate_device long_device) = 50.
Proof.
  assert (H : (50 < String.length long_device)%nat) by (vm_compute; lia).
  split; [exact H|]. exact (truncate_device_first_50 long_device H).
Defined.

(** ** C3: device-name resolution *)

(** C3.  When both [remoteDevice] and [remotePort] are present, the test
    [remoteDevice != '' or remoteDevice != 'localhost'] always holds, so
    an empty or [localhost] remote device is chosen over the port. *)
Theorem resolve_device_localhost_and_empty :
  resolve_device (Some "localhost") (Some "port1") = "localhost" /\
  resolve_device (Some "") (Some "port1") = "".
Proof. split; reflexivity. Qed.

(** ** C5, C6: customers *)

(** C5.  A customer whose [ID] holds a quote: the table is truncated, the
    batch INSERT that follows splices [1'2] unescaped, the store rejects it
    and the error leaves [update_customer_data]; the customers table is
    left empty although one record came in and two rows were there. *)
Theorem customer_replace_fails_on_quoted_id :
  length (st_store (clean_state customers_before 3) "customers") = 2 /\
  run_events (update_customer_data [customer_with_quote]) (clean_state customers_before 3) =
  [EvExec (STruncate "customers") true;
   EvExec (SInsert "customers" ["contextid"; "customer"; "status"; "stackid"]
                   [["1'2"; "O''Hara Clinic"; "1"; "7"]]) false] /\
  fst (update_customer_data [customer_with_quote] (clean_state customers_before 3)) = Raise DbError /\
  st_store (snd (update_customer_data [customer_with_quote] (clean_state customers_before 3)))
    "customers" = [].
Proof. repeat split; vm_compute; reflexivity. Qed.

(** C6.  [update_customer_data] first truncates the customers table.  Either
    the truncation is executed and everything else the pass does comes
    after it, or it fails: then the failed TRUNCATE is the only statement
    of the pass, no INSERT into customers is attempted, and the pass ends
    with an exception ([SystemExit] for a caught [ResourceWarning]). *)
Theorem customers_insert_only_after_clear (customers : list Row) (st : State) :
  (exists post, run_events (update_customer_data customers) st =
                EvExec (STruncate "customers") true :: post) \/
  (run_events (update_customer_data customers) st = [EvExec (STruncate "customers") false] /\
   exists e, fst (update_customer_data customers st) = Raise e).
Proof.
  unfold update_customer_data.
  match goal with |- context [bind (__clear_table _) ?k] => set (K := k) end.
  assert (HK : only (fun _ => True) (K true)).
  { subst K; cbv beta; simpl negb.
    destruct (0 <? _)%nat; [|apply only_ret].
    apply only_bind; [|intros _]; apply only_try_rw; try apply only_ret.
    - apply only_bind; [apply only_of_res|intros rows].
      apply only_bind; [|intros _; apply only_read_cache; auto].
      unfold insert_data_to_table_batch; destruct rows; [apply only_raise|].
      eapply only_weaken; [|apply only_batch_loop]; auto.
    - apply only_timestamp; auto. }
  assert (Hb : forall st0, bind (__clear_table "customers") K st0 =
                           match __clear_table "customers" st0 with
                           | (Ok a, st') => K a st'
                           | (Raise e, st') => (Raise e, st')
                           end) by reflexivity.
  unfold run_events; rewrite Hb.
  remember (__clear_table "customers" st) as c eqn:Hc.
  unfold __clear_table, try_rw, bind, exec in Hc.
  destruct (st_fault st (st_nexec st)) as [e|] eqn:Ef.
  - right. destruct e; simpl in Hc; subst c; simpl;
      (split; [rewrite skipn_app, skipn_all, Nat.sub_diag; reflexivity|eexists; reflexivity]).
  - left. simpl in Hc; subst c.
    match goal with |- context [K true ?st1] => destruct (HK st1) as [evs [Hev _]] end.
    exists evs. rewrite Hev. simpl. rewrite <- app_assoc, skipn_app, skipn_all, Nat.sub_diag.
    reflexivity.
Qed.

(** ** The program logic *)










(** ** Runs of the primitive steps on a store without faults *)

Lemma combine_fst_snd (l : Row) : combine (map fst l) (map snd l) = l.
Proof. induction l as [|[k v] l IH]; simpl; [reflexivity|rewrite IH; reflexivity]. Qed.


Lemma insert_run t r st :
  no_faults st -> kept_cols r <> [] ->
  insert_data_to_table t r st =
  (Ok tt, mkState (set_table (st_store st) t
                     (st_store st t ++ [("ID", string_of_nat (st_next_id st)) :: kept_cols r]))
                  (S (st_next_id st)) (st_cache st) (st_fault st) (S (st_nexec st)) (st_clock st)
                  (st_trace st ++ [EvExec (insert_stmt t r) true])).
Proof.
  intros Hnf Hk. unfold insert_data_to_table, try_rw, bind, exec. rewrite (Hnf (st_nexec st)).
  assert (Hd : forall l : Row,
            decode_all (map (fun kv => let v := snd kv in
                                       if has_quote v then double_quotes v else v) l) =
            Some (map snd l)).
  { induction l as [|[k v] l IH]; simpl; [reflexivity|].
    cbv zeta in IH. rewrite decode_insert_value, IH; reflexivity. }
  unfold insert_stmt; fold (kept_cols r).
  destruct (kept_cols r) as [|kv l]; [congruence|].
  change (map fst (kv :: l)) with (fst kv :: map fst l).
  cbn [apply_stmt new_rows]. rewrite Hd.
  change (fst kv :: map fst l) with (map fst (kv :: l)). rewrite combine_fst_snd. reflexivity.
Qed.

Lemma read_cache_run t st :
  no_faults st -> t <> "activezones" ->
  __read_sql_tables_to_cache t st =
  (Ok tt, mkState (st_store st) (st_next_id st) (set_table (st_cache st) t (st_store st t))
                  (st_fault st) (S (st_nexec st)) (st_clock st)
                  (st_trace st ++ [EvExec (SSelectAll t) true; EvReload t])).
Proof.
  intros Hnf Ht. unfold __read_sql_tables_to_cache, try_rw, bind, exec, set_cache, read_stmt.
  apply String.eqb_neq in Ht. rewrite Ht.
  rewrite (Hnf (st_nexec st)). simpl. rewrite <- app_assoc. reflexivity.
Qed.


Lemma timestamp_run l st :
  no_faults st ->
  __update_source_refresh_timestamp l st =
  (Raise DbError, mkState (st_store st) (st_next_id st) (st_cache st) (st_fault st)
                          (S (st_nexec st)) (st_clock st)
                          (st_trace st ++ [EvExec (STracking l (st_clock st)) false])).
Proof.
  intros Hnf. unfold __update_source_refresh_timestamp, now, try_rw, bind, exec.
  rewrite (Hnf (st_nexec st)). reflexivity.
Qed.

(** ** Rows, keys and column updates *)














Lemma decode_all_quote_free (l : list string) :
  Forall quote_free l -> decode_all l = Some l.
Proof.
  induction l as [|v l IH]; intros H; simpl; [reflexivity|].
  inversion H as [|x y Hv Hl]; subst. rewrite decode_no_quote by exact Hv. rewrite IH by exact Hl.
  reflexivity.
Qed.



(** ** Stack passes: webpools and webs *)



(** ** Webpools and webs *)




(** ** Stacks *)














(** ** Whole passes *)



















(** ** SanNav: switch ids *)

(** *** Computations that only read *)

Lemma readonly_ret {A} (a : A) : readonly (ret a).
Proof. intros st; repeat split. exists []; rewrite app_nil_r; reflexivity. Qed.

Lemma readonly_raise {A} e : readonly (@raise A e).
Proof. intros st; repeat split. exists []; rewrite app_nil_r; reflexivity. Qed.

Lemma readonly_bind {A B} (m : M A) (k : A -> M B) :
  readonly m -> (forall a, readonly (k a)) -> readonly (bind m k).
Proof.
  intros Hm Hk st. unfold bind. destruct (Hm st) as (H1 & H2 & H3 & evs & H4).
  destruct (m st) as [[a|e] st1]; simpl in *.
  - destruct (Hk a st1) as (G1 & G2 & G3 & evs' & G4). repeat split; try congruence.
    exists (evs ++ evs'). rewrite G4, H4, app_assoc. reflexivity.
  - repeat split; try assumption. exists evs; exact H4.
Qed.

Lemma readonly_get k r : readonly (get k r).
Proof. unfold get; destruct (lookup k r); [apply readonly_ret|apply readonly_raise]. Qed.

Lemma readonly_first {A} (l : list A) : readonly (first l).
Proof. destruct l; [apply readonly_raise|apply readonly_ret]. Qed.

Lemma readonly_cache_find t kc k : readonly (cache_find t kc k).
Proof. intros st; repeat split. eexists; reflexivity. Qed.

Lemma readonly_resolve_ids ts fields : forall row, readonly (resolve_ids ts fields row).
Proof.
  induction ts as [|t ts IH]; intros row; simpl; [apply readonly_ret|].
  apply readonly_bind; [apply readonly_get|intros v].
  apply readonly_bind; [apply readonly_cache_find|intros found].
  apply readonly_bind; [apply readonly_first|intros item].
  apply readonly_bind; [apply readonly_get|intros i]. apply IH.
Qed.

(** *** Inversion of successful runs *)

Lemma bind_ok_inv {A B} (m : M A) (k : A -> M B) st b st' :
  bind m k st = (Ok b, st') -> exists a st1, m st = (Ok a, st1) /\ k a st1 = (Ok b, st').
Proof.
  unfold bind. destruct (m st) as [[a|e] st1]; intros H; [eauto|discriminate].
Qed.

Lemma ret_ok_inv {A} (a b : A) st st' : ret a st = (Ok b, st') -> a = b /\ st' = st.
Proof. unfold ret; intros H; injection H; auto. Qed.

Lemma get_ok_inv k r st v st' : get k r st = (Ok v, st') -> lookup k r = Some v /\ st' = st.
Proof.
  unfold get; destruct (lookup k r); intros H; [apply ret_ok_inv in H; destruct H; subst; auto|].
  discriminate.
Qed.

Lemma first_ok_inv {A} (l : list A) st x st' :
  first l st = (Ok x, st') -> exists rest, l = x :: rest /\ st' = st.
Proof.
  destruct l as [|y rest]; simpl; intros H; [discriminate|].
  apply ret_ok_inv in H; destruct H; subst; eauto.
Qed.

Lemma cache_find_ok_inv t kc k st f st' :
  cache_find t kc k st = (Ok f, st') -> f = key_rows kc k (st_cache st t) /\ st_cache st' = st_cache st.
Proof. unfold cache_find; intros H; injection H as <- <-; auto. Qed.

Ltac peel H x st1 H1 := apply bind_ok_inv in H; destruct H as (x & st1 & H1 & H).

(** *** The formatting phase *)

(** *** The id tables phase *)

(** ** C7, C8: the stack pass *)







(** ** C9: switch ids *)

Lemma get_runid_raises st : exists e, fst (__get_runid st) = Raise e.
Proof.
  unfold __get_runid, bind.
  destruct (now st) as [[stamp|e] st1]; [|simpl; eauto].
  destruct (try_rw (insert_data_to_table "run" [("capturedatetime", stamp)])
                   (raise (SystemExit "ERROR: Creting Run record Run table. Trminating program."))
                   st1) as [[u|e] st2]; [|simpl; eauto].
  unfold try_rw, exec. destruct (st_fault st2 (st_nexec st2)) as [e|]; cbn [apply_stmt].
  - destruct e; cbn; eauto.
  - cbn; eauto.
Qed.

(** C9, code bug: [update_sannav_data] never builds a fabric-entity row.
    Whatever the switchport records and the store, the pass ends in an
    exception: its run-id query (a SELECT with a stray [+] line break and a
    double-quoted LIKE pattern) is rejected, and the driver error is not
    caught.  On the record [sw_port] naming the switch [sw9], absent from
    the store, the switch row is inserted with id 6 and the switch cache is
    reloaded to the stored rows, but the pass stops at the run-id SELECT,
    the last statement sent, before any fabric-entity row is formatted. *)
Theorem sannav_build_never_builds_rows :
  (forall sannav st, exists e, fst (sannav_build sannav st) = Raise e) /\
  fst (sannav_build [sw_port] (clean_state sannav_tables 2)) = Raise DbError /\
  st_store (snd (sannav_build [sw_port] (clean_state sannav_tables 2))) "switch"
    = [[("ID", "6"); ("name", "sw9")]] /\
  st_cache (snd (sannav_build [sw_port] (clean_state sannav_tables 2))) "switch"
    = st_store (snd (sannav_build [sw_port] (clean_state sannav_tables 2))) "switch" /\
  In (EvExec (SInsert "switch" ["name"] [["sw9"]]) true)
     (run_events (sannav_build [sw_port]) (clean_state sannav_tables 2)) /\
  In (EvReload "switch") (run_events (sannav_build [sw_port]) (clean_state sannav_tables 2)) /\
  last (run_events (sannav_build [sw_port]) (clean_state sannav_tables 2)) (EvReload "switch")
    = EvExec (SSelectRunId "2026-01-01 00:00:00") false.
Proof.
  split.
  - intros sannav st. unfold sannav_build. cbv zeta. unfold bind.
    destruct (for_each update_sannav_id_tables
                (sannav_id_table_step (map fill_defaults sannav)) st) as [[u|e] st1];
      [|simpl; eauto].
    destruct (get_runid_raises st1) as [e He].
    destruct (__get_runid st1) as [r st2]. simpl in He; subst r. simpl; eauto.
  - vm_compute. repeat split; repeat (first [left; reflexivity | right]).
Qed.

(** ** Further properties of the code *)

Lemma chunks_fuel_eq {A} bs : (0 < bs)%nat -> forall f g (l : list A),
  (length l <= f)%nat -> (length l <= g)%nat -> chunks_fuel f bs l = chunks_fuel g bs l.
Proof.
  intros Hbs; induction f as [|f IH]; intros g l Hf Hg.
  - destruct l; [destruct g; reflexivity|simpl in Hf; lia].
  - destruct l as [|x l]; [destruct g; reflexivity|].
    destruct g as [|g]; [simpl in Hg; lia|]. simpl. f_equal.
    destruct bs as [|bs]; [lia|]. simpl skipn.
    apply IH; simpl in *; rewrite length_skipn; lia.
Qed.

Lemma chunks_cons {A} bs (l : list A) :
  (0 < bs)%nat -> l <> [] -> chunks bs l = firstn bs l :: chunks bs (skipn bs l).
Proof.
  intros Hbs Hl. unfold chunks. destruct l as [|x l]; [congruence|]. simpl length. simpl.
  f_equal. destruct bs as [|bs]; [lia|]. simpl skipn.
  apply chunks_fuel_eq; [exact Hbs| |reflexivity]. rewrite length_skipn. lia.
Qed.

Lemma chunks_nil {A} bs : chunks bs (@nil A) = [].
Proof. reflexivity. Qed.

Lemma chunks_small {A} bs (l : list A) :
  (0 < length l)%nat -> (length l <= bs)%nat -> chunks bs l = [l].
Proof.
  intros H1 H2. assert (Hl : l <> []) by (intros ->; simpl in H1; lia).
  rewrite chunks_cons by (exact Hl || lia).
  rewrite firstn_all2 by exact H2. rewrite skipn_all2 by exact H2. reflexivity.
Qed.

Lemma new_rows_app cols (a b : list (list string)) : forall nid,
  new_rows cols nid (a ++ b) =
  match new_rows cols nid a with
  | Some (ra, n1) => match new_rows cols n1 b with
                     | Some (rb, n2) => Some (ra ++ rb, n2)
                     | None => None
                     end
  | None => None
  end.
Proof.
  induction a as [|v a IH]; intros nid; simpl.
  - destruct (new_rows cols nid b) as [[? ?]|]; reflexivity.
  - rewrite IH. destruct (decode_all v) as [ds|].
    + destruct (new_rows cols (S nid) a) as [[ra n1]|]; [|reflexivity].
      destruct (new_rows cols n1 b) as [[rb n2]|]; reflexivity.
    + destruct (new_rows cols (S nid) a) as [[ra n1]|]; [|reflexivity].
      destruct (new_rows cols n1 b) as [[rb n2]|]; reflexivity.
Qed.

Lemma flush_run t cols acc st rs nid' :
  no_faults st -> cols <> [] -> new_rows cols (st_next_id st) acc = Some (rs, nid') ->
  flush t cols acc st =
  (Ok tt, mkState (set_table (st_store st) t (st_store st t ++ rs)) nid' (st_cache st)
                  (st_fault st) (S (st_nexec st)) (st_clock st)
                  (st_trace st ++ [EvExec (SInsert t cols acc) true])).
Proof.
  intros Hnf Hc Hn. unfold flush, try_rw, bind, exec. rewrite (Hnf (st_nexec st)).
  destruct cols as [|c0 cols']; [congruence|]. cbn [apply_stmt]. rewrite Hn. reflexivity.
Qed.

Lemma batch_loop_partial t cols bs : forall rs vals acc c st,
  Forall2 (fun e v => row_values cols e = Ok v) rs vals ->
  (0 < bs)%nat -> (c + length rs < bs)%nat ->
  batch_loop t cols bs acc c rs st =
  (if (0 <? c + length rs)%nat then flush t cols (acc ++ vals) else ret tt) st.
Proof.
  induction rs as [|e rs IH]; intros vals acc c st HF Hbs Hlt.
  - inversion HF; subst. rewrite app_nil_r, Nat.add_0_r. reflexivity.
  - inversion HF as [|e' v rs' vals' Hv HF']; subst. simpl.
    unfold bind at 1; rewrite Hv; simpl.
    destruct (bs =? 0)%nat eqn:Hb; [apply Nat.eqb_eq in Hb; lia|].
    replace (S c mod bs =? 0)%nat with false
      by (symmetry; apply Nat.eqb_neq; rewrite Nat.mod_small by (simpl in Hlt; lia); lia).
    rewrite Bool.andb_false_l.
    rewrite (IH vals' (acc ++ [v]) (S c) st HF' Hbs) by (simpl in Hlt; lia).
    rewrite <- app_assoc. simpl app.
    replace (0 <? S c + length rs)%nat with true by (symmetry; apply Nat.ltb_lt; lia).
    replace (0 <? c + S (length rs))%nat with true by (symmetry; apply Nat.ltb_lt; lia).
    reflexivity.
Qed.

Lemma appended_refl t st : appended t [] (st_next_id st) [] st st.
Proof.
  unfold appended; repeat split; try rewrite app_nil_r; try reflexivity.
  intros t'; destruct (String.eqb t' t) eqn:E; [apply String.eqb_eq in E; subst; try rewrite app_nil_r|]; reflexivity.
Qed.

Lemma appended_trans t rs1 rs2 n1 n2 e1 e2 st1 st2 st3 :
  appended t rs1 n1 e1 st1 st2 -> appended t rs2 n2 e2 st2 st3 ->
  appended t (rs1 ++ rs2) n2 (e1 ++ e2) st1 st3.
Proof.
  intros (A1 & B1 & C1 & D1 & E1 & F1) (A2 & B2 & C2 & D2 & E2 & F2).
  unfold appended; repeat split; try congruence.
  - intros t'. rewrite A2. destruct (String.eqb t' t) eqn:E.
    + apply String.eqb_eq in E; subst t'. rewrite A1, String.eqb_refl, app_assoc; reflexivity.
    + rewrite A1, E. reflexivity.
  - rewrite F2, F1, app_assoc; reflexivity.
Qed.

Lemma flush_appended t cols acc st rs nid' :
  no_faults st -> cols <> [] -> new_rows cols (st_next_id st) acc = Some (rs, nid') ->
  appended t rs nid' [flush_event t cols acc] st (snd (flush t cols acc st)) /\
  fst (flush t cols acc st) = Ok tt.
Proof.
  intros Hnf Hc Hn. rewrite (flush_run t cols acc st rs nid' Hnf Hc Hn). simpl.
  split; [|reflexivity]. unfold appended, set_table; simpl; repeat split.
Qed.

Lemma app_split_len {A} (a b c d : list A) :
  length a = length c -> a ++ b = c ++ d -> a = c /\ b = d.
Proof.
  revert c; induction a as [|x a IH]; intros [|y c] Hl H; simpl in *; try discriminate; auto.
  injection H as -> H. injection Hl as Hl. destruct (IH c Hl H) as [-> ->]. auto.
Qed.

(** The batch loop on rows all accepted by the store: one flush per chunk. *)
Lemma batch_loop_run t cols bs : forall n rs vals acc c st rows nid',
  (length rs < n)%nat -> no_faults st -> cols <> [] -> (0 < bs)%nat -> length acc = c ->
  (c < bs)%nat -> Forall2 (fun e v => row_values cols e = Ok v) rs vals ->
  new_rows cols (st_next_id st) (acc ++ vals) = Some (rows, nid') ->
  fst (batch_loop t cols bs acc c rs st) = Ok tt /\
  appended t rows nid' (map (flush_event t cols) (chunks bs (acc ++ vals)))
           st (snd (batch_loop t cols bs acc c rs st)).
Proof.
  induction n as [|n IH]; intros rs vals acc c st rows nid' Hn Hnf Hcols Hbs Hc Hcb HF Hnew; [lia|].
  pose proof (Forall2_length HF) as Hl.
  destruct (Nat.lt_ge_cases (c + length rs) bs) as [Hsmall|Hbig].
  - rewrite (batch_loop_partial t cols bs rs vals acc c st HF Hbs Hsmall).
    destruct (0 <? c + length rs)%nat eqn:Hpos.
    + apply Nat.ltb_lt in Hpos.
      rewrite (chunks_small bs (acc ++ vals)) by (rewrite length_app; lia).
      destruct (flush_appended t cols (acc ++ vals) st rows nid' Hnf Hcols Hnew) as [H1 H2].
      split; [exact H2|exact H1].
    + apply Nat.ltb_ge in Hpos.
      assert (acc = [] /\ vals = []) as [-> ->]
        by (split; [destruct acc|destruct vals]; simpl in *; try reflexivity; lia).
      simpl in Hnew. injection Hnew as <- <-. split; [reflexivity|apply appended_refl].
  - set (k := (bs - c)%nat).
    rewrite <- (firstn_skipn k rs) in HF |- *. rewrite <- (firstn_skipn k vals) in HF, Hnew |- *.
    apply Forall2_app_inv_l in HF. destruct HF as [vA [vB [HA [HB Hv]]]].
    pose proof (Forall2_length HA) as HlA. pose proof (Forall2_length HB) as HlB.
    rewrite length_firstn in HlA. rewrite length_skipn in HlB.
    assert (HvA : vA = firstn k vals /\ vB = skipn k vals).
    { apply app_split_len; [rewrite length_firstn; lia|symmetry; exact Hv]. }
    destruct HvA as [-> ->]. clear Hv.
    rewrite (batch_loop_fill t cols bs (firstn k rs) (firstn k vals) (skipn k rs) acc c st HA)
      by (try rewrite length_firstn; lia).
    rewrite app_assoc in Hnew |- *. rewrite new_rows_app in Hnew.
    destruct (new_rows cols (st_next_id st) (acc ++ firstn k vals)) as [[ra n1]|] eqn:Ea;
      [|discriminate].
    destruct (new_rows cols n1 (skipn k vals)) as [[rb n2]|] eqn:Eb; [|discriminate].
    injection Hnew as <- <-.
    destruct (flush_appended t cols (acc ++ firstn k vals) st ra n1 Hnf Hcols Ea) as [H1 H2].
    unfold bind. destruct (flush t cols (acc ++ firstn k vals) st) as [r1 st1] eqn:Ef.
    simpl in H1, H2. subst r1.
    assert (Hnf1 : no_faults st1) by (intros i; rewrite (proj1 (proj2 (proj2 (proj2 H1)))); apply Hnf).
    assert (Hid1 : st_next_id st1 = n1) by apply H1.
    rewrite <- Hid1 in Eb.
    destruct (IH (skipn k rs) (skipn k vals) [] 0 st1 rb n2) as [G1 G2];
      [rewrite length_skipn; lia|exact Hnf1|exact Hcols|exact Hbs|reflexivity|exact Hbs|exact HB
      |exact Eb|].
    split; [exact G1|].
    rewrite (chunks_cons bs ((acc ++ firstn k vals) ++ skipn k vals))
      by (try exact Hbs; intros Hnil; apply (f_equal (@length _)) in Hnil;
          rewrite !length_app, length_firstn, length_skipn in Hnil; simpl in Hnil; lia).
    rewrite <- app_assoc, firstn_skipn.
    assert (Hfa : firstn bs (acc ++ vals) = acc ++ firstn k vals).
    { rewrite firstn_app. rewrite firstn_all2 by lia. f_equal. f_equal. lia. }
    assert (Hsa : skipn bs (acc ++ vals) = skipn k vals).
    { rewrite skipn_app. rewrite skipn_all2 by lia. simpl. f_equal. lia. }
    rewrite Hfa, Hsa. simpl map.
    change (flush_event t cols (acc ++ firstn k vals) :: map (flush_event t cols) (chunks bs (skipn k vals)))
      with ([flush_event t cols (acc ++ firstn k vals)] ++ map (flush_event t cols) (chunks bs (skipn k vals))).
    eapply appended_trans; [exact H1|exact G2].
Qed.

Lemma new_rows_decoded cols vals ds : forall nid,
  Forall2 (fun v d => decode_all v = Some d) vals ds ->
  exists rows, new_rows cols nid vals = Some (rows, (nid + length vals)%nat) /\
    Forall2 (fun d r => exists n, r = ("ID", n) :: combine cols d) ds rows.
Proof.
  intros nid H; revert nid; induction H as [|v d vals ds Hd H IH]; intros nid; simpl.
  - exists []; rewrite Nat.add_0_r; auto.
  - destruct (IH (S nid)) as [rows [Hr HF]]. rewrite Hd, Hr.
    eexists; split; [f_equal; f_equal; lia|]. constructor; [eexists; reflexivity|exact HF].
Qed.

Lemma decoded_quote_free (vals : list (list string)) :
  Forall (Forall quote_free) vals -> Forall2 (fun v d => decode_all v = Some d) vals vals.
Proof.
  induction 1; constructor; [apply decode_all_quote_free|]; assumption.
Qed.

Lemma batch_run t rs bs vals ds st :
  no_faults st -> (0 < bs)%nat -> rs <> [] -> batch_columns (hd [] rs) <> [] ->
  Forall2 (fun e v => row_values (batch_columns (hd [] rs)) e = Ok v) rs vals ->
  Forall2 (fun v d => decode_all v = Some d) vals ds ->
  exists rows,
    Forall2 (fun d r => exists n, r = ("ID", n) :: combine (batch_columns (hd [] rs)) d) ds rows /\
    fst (insert_data_to_table_batch t rs bs st) = Ok tt /\
    appended t rows (st_next_id st + length vals)%nat
             (map (flush_event t (batch_columns (hd [] rs))) (chunks bs vals))
             st (snd (insert_data_to_table_batch t rs bs st)).
Proof.
  intros Hnf Hbs Hne Hcols Hv Hd.
  destruct (new_rows_decoded (batch_columns (hd [] rs)) vals ds (st_next_id st) Hd)
    as [rows [Hr HF]].
  exists rows; split; [exact HF|].
  destruct rs as [|r0 rs']; [congruence|]. unfold insert_data_to_table_batch.
  apply (batch_loop_run t _ bs (S (length (r0 :: rs'))) (r0 :: rs') vals [] 0 st rows);
    auto.
Qed.

Lemma chunks_spec {A} bs (l : list A) :
  (0 < bs)%nat ->
  concat (chunks bs l) = l /\
  Forall (fun ch => 0 < length ch <= bs)%nat (chunks bs l) /\
  Forall (fun ch => length ch = bs) (removelast (chunks bs l)).
Proof.
  intros Hbs. remember (length l) as n eqn:Hn. revert l Hn.
  induction n as [n IH] using lt_wf_ind. intros l Hn.
  destruct l as [|x l']; [repeat constructor|].
  set (l := x :: l') in *.
  rewrite (chunks_cons bs l) by (try exact Hbs; discriminate).
  destruct (IH (length (skipn bs l))) with (l := skipn bs l) as (H1 & H2 & H3);
    [rewrite length_skipn, Hn; unfold l; simpl length; lia|reflexivity|].
  split; [simpl; rewrite H1; apply firstn_skipn|]. split.
  - constructor; [|exact H2]. rewrite length_firstn. unfold l; simpl; lia.
  - destruct (chunks bs (skipn bs l)) as [|c cs] eqn:Ec.
    + simpl. constructor.
    + change (removelast (firstn bs l :: c :: cs)) with (firstn bs l :: removelast (c :: cs)).
      constructor; [|exact H3]. rewrite length_firstn.
      apply Nat.min_l. destruct (Nat.le_gt_cases bs (length l)) as [Hle|Hgt]; [exact Hle|].
      exfalso. rewrite skipn_all2 in Ec by lia. discriminate.
Qed.

Lemma lookup_in_keys c (r : Row) : In c (map fst r) -> exists v, lookup c r = Some v.
Proof.
  induction r as [|[k v] r IH]; simpl; [tauto|]. intros [->|H].
  - rewrite String.eqb_refl; eauto.
  - destruct (String.eqb k c); eauto.
Qed.

Lemma row_values_found cols r :
  (forall c, In c cols -> exists v, lookup c r = Some v) -> exists vs, row_values cols r = Ok vs.
Proof.
  induction cols as [|c cols IH]; intros H; simpl; [eauto|].
  destruct (H c (or_introl eq_refl)) as [v Hv]. rewrite Hv.
  destruct IH as [vs Hvs]; [intros c' Hc'; apply H; right; exact Hc'|]. rewrite Hvs; eauto.
Qed.

Lemma row_values_first r0 : exists vs, row_values (batch_columns r0) r0 = Ok vs.
Proof.
  apply row_values_found. intros c Hc. unfold batch_columns in Hc.
  apply filter_In in Hc. apply lookup_in_keys, Hc.
Qed.

(** X1: on a store without faults, a positive block size and a non-empty list of records whose first record has a column besides [ID] and [datecreated] and whose values are all found and quote-free, [insert_data_to_table_batch] succeeds, sends one INSERT per block of [batch_size] rows (every block full but the last, none empty, in order), and appends exactly those rows, with store-assigned ids, to the table only. *)
Theorem insert_batch_in_chunks (t : string) (rs : list Row) (vals : list (list string))
    (bs : nat) (st : State) (Hnf : no_faults st) (Hbs : (0 < bs)%nat) (Hne : rs <> [])
    (Hcols : batch_columns (hd [] rs) <> [])
    (Hv : Forall2 (fun e v => row_values (batch_columns (hd [] rs)) e = Ok v) rs vals)
    (Hq : Forall (Forall quote_free) vals) :
  fst (insert_data_to_table_batch t rs bs st) = Ok tt /\
  run_events (insert_data_to_table_batch t rs bs) st =
    map (flush_event t (batch_columns (hd [] rs))) (chunks bs vals) /\
  concat (chunks bs vals) = vals /\
  Forall (fun ch => length ch = bs) (removelast (chunks bs vals)) /\
  Forall (fun ch => 0 < length ch <= bs)%nat (chunks bs vals) /\
  exists rows,
    st_store (snd (insert_data_to_table_batch t rs bs st)) t = st_store st t ++ rows /\
    Forall2 (fun v r => exists n, r = ("ID", n) :: combine (batch_columns (hd [] rs)) v) vals rows /\
    (forall t', t' <> t ->
       st_store (snd (insert_data_to_table_batch t rs bs st)) t' = st_store st t').
Proof.
  destruct (batch_run t rs bs vals vals st Hnf Hbs Hne Hcols Hv (decoded_quote_free vals Hq))
    as [rows [HF [Hok (Hs & _ & _ & _ & _ & Htr)]]].
  destruct (chunks_spec bs vals Hbs) as (C1 & C2 & C3).
  split; [exact Hok|]. split; [apply run_events_eq; exact Htr|].
  split; [exact C1|]. split; [exact C3|]. split; [exact C2|].
  exists rows. split; [rewrite Hs, String.eqb_refl; reflexivity|]. split; [exact HF|].
  intros t' Ht'. rewrite Hs. apply String.eqb_neq in Ht'. rewrite Ht'. reflexivity.
Qed.

(** X2: [insert_data_to_table_batch] on an empty list raises IndexError, and on a block size of 0 raises ZeroDivisionError, both before touching the store. *)
Theorem insert_batch_empty_or_zero_block (t : string) (bs : nat) (st : State) :
  insert_data_to_table_batch t [] bs st = (Raise IndexError, st) /\
  forall r0 rs, insert_data_to_table_batch t (r0 :: rs) 0 st = (Raise ZeroDivisionError, st).
Proof.
  split; [reflexivity|]. intros r0 rs. unfold insert_data_to_table_batch; simpl.
  destruct (row_values_first r0) as [vs Hvs]. unfold bind. rewrite Hvs. reflexivity.
Qed.

Lemma batch_loop_fail t cols bs : forall rs vals acc c e post err st,
  Forall2 (fun e v => row_values cols e = Ok v) rs vals ->
  (0 < bs)%nat -> (c + length rs < bs)%nat -> row_values cols e = Raise err ->
  batch_loop t cols bs acc c (rs ++ e :: post) st = (Raise err, st).
Proof.
  induction rs as [|x rs IH]; intros vals acc c e post err st HF Hbs Hlt He.
  - simpl. unfold bind. rewrite He. reflexivity.
  - inversion HF as [|x' v rs' vals' Hv HF']; subst. simpl.
    unfold bind at 1; rewrite Hv; simpl.
    destruct (bs =? 0)%nat eqn:Hb; [apply Nat.eqb_eq in Hb; lia|].
    replace (S c mod bs =? 0)%nat with false
      by (symmetry; apply Nat.eqb_neq; rewrite Nat.mod_small by (simpl in Hlt; lia); lia).
    rewrite Bool.andb_false_l. apply (IH vals'); auto. simpl in Hlt; lia.
Qed.

(** Whole blocks at the head of the list are flushed before the rest is read. *)
Lemma batch_loop_blocks t cols bs : forall q rs rest vals st rows nid',
  no_faults st -> cols <> [] -> (0 < bs)%nat -> length rs = (q * bs)%nat ->
  Forall2 (fun e v => row_values cols e = Ok v) rs vals ->
  new_rows cols (st_next_id st) vals = Some (rows, nid') ->
  exists st1, appended t rows nid' (map (flush_event t cols) (chunks bs vals)) st st1 /\
    no_faults st1 /\
    batch_loop t cols bs [] 0 (rs ++ rest) st = batch_loop t cols bs [] 0 rest st1.
Proof.
  induction q as [|q IH]; intros rs rest vals st rows nid' Hnf Hcols Hbs Hl HF Hnew.
  - destruct rs; [|simpl in Hl; lia]. inversion HF; subst. simpl in Hnew.
    injection Hnew as <- <-. exists st. split; [apply appended_refl|]. auto.
  - pose proof (Forall2_length HF) as Hlv.
    rewrite <- (firstn_skipn bs rs) in HF |- *. rewrite <- (firstn_skipn bs vals) in HF, Hnew |- *.
    apply Forall2_app_inv_l in HF. destruct HF as [vA [vB [HA [HB Hv]]]].
    pose proof (Forall2_length HA) as HlA. rewrite length_firstn in HlA.
    assert (HvA : vA = firstn bs vals /\ vB = skipn bs vals).
    { apply app_split_len; [rewrite length_firstn; lia|symmetry; exact Hv]. }
    destruct HvA as [-> ->]. clear Hv.
    rewrite <- app_assoc.
    rewrite (batch_loop_fill t cols bs (firstn bs rs) (firstn bs vals) (skipn bs rs ++ rest) [] 0 st HA)
      by (try rewrite length_firstn; lia).
    rewrite new_rows_app in Hnew.
    destruct (new_rows cols (st_next_id st) (firstn bs vals)) as [[ra n1]|] eqn:Ea; [|discriminate].
    destruct (new_rows cols n1 (skipn bs vals)) as [[rb n2]|] eqn:Eb; [|discriminate].
    injection Hnew as <- <-.
    destruct (flush_appended t cols ([] ++ firstn bs vals) st ra n1 Hnf Hcols Ea) as [H1 H2].
    unfold bind. destruct (flush t cols ([] ++ firstn bs vals) st) as [r1 st1] eqn:Ef.
    simpl in H1, H2. subst r1.
    assert (Hnf1 : no_faults st1) by (intros i; rewrite (proj1 (proj2 (proj2 (proj2 H1)))); apply Hnf).
    assert (Hid1 : st_next_id st1 = n1) by apply H1. rewrite <- Hid1 in Eb.
    destruct (IH (skipn bs rs) rest (skipn bs vals) st1 rb n2 Hnf1 Hcols Hbs) as [st2 (G1 & G2 & G3)];
      [rewrite length_skipn; simpl in Hl; lia|exact HB|exact Eb|].
    exists st2. split; [|split; [exact G2|exact G3]].
    rewrite (chunks_cons bs (firstn bs vals ++ skipn bs vals))
      by (try exact Hbs; rewrite firstn_skipn; intros ->; simpl in Hlv; lia).
    rewrite firstn_skipn. simpl map.
    change (flush_event t cols (firstn bs vals) :: map (flush_event t cols) (chunks bs (skipn bs vals)))
      with ([flush_event t cols (firstn bs vals)] ++ map (flush_event t cols) (chunks bs (skipn bs vals))).
    eapply appended_trans; [exact H1|exact G1].
Qed.

(** X3: when a record lacks a column of the first record, [insert_data_to_table_batch] raises KeyError for that column after having flushed only the whole blocks that precede the faulty record: the partial block before it is never sent. *)
Theorem insert_batch_missing_column (t : string) (pre post : list Row) (e : Row)
    (vals : list (list string)) (bs : nat) (c : string) (st : State)
    (Hnf : no_faults st) (Hbs : (0 < bs)%nat)
    (Hv : Forall2 (fun r v => row_values (batch_columns (hd [] (pre ++ e :: post))) r = Ok v) pre vals)
    (Hq : Forall (Forall quote_free) vals)
    (He : row_values (batch_columns (hd [] (pre ++ e :: post))) e = Raise (KeyError c)) :
  fst (insert_data_to_table_batch t (pre ++ e :: post) bs st) = Raise (KeyError c) /\
  run_events (insert_data_to_table_batch t (pre ++ e :: post) bs) st =
    map (flush_event t (batch_columns (hd [] (pre ++ e :: post))))
        (chunks bs (firstn (bs * (length pre / bs)) vals)) /\
  exists rows,
    st_store (snd (insert_data_to_table_batch t (pre ++ e :: post) bs st)) t = st_store st t ++ rows /\
    length rows = (bs * (length pre / bs))%nat.
Proof.
  set (cols := batch_columns (hd [] (pre ++ e :: post))) in *.
  assert (Hcols : cols <> []) by (intros Hc; rewrite Hc in He; simpl in He; discriminate).
  set (k := (bs * (length pre / bs))%nat).
  pose proof (Forall2_length Hv) as Hlv.
  assert (Hk : (k <= length pre)%nat) by (apply Nat.Div0.mul_div_le).
  assert (Hr : (length pre - k < bs)%nat).
  { unfold k. rewrite (Nat.div_mod_eq (length pre) bs) at 1.
    pose proof (Nat.mod_upper_bound (length pre) bs ltac:(lia)). lia. }
  assert (Hrun : insert_data_to_table_batch t (pre ++ e :: post) bs =
                 batch_loop t cols bs [] 0 (firstn k pre ++ (skipn k pre ++ e :: post))).
  { rewrite app_assoc, firstn_skipn. unfold insert_data_to_table_batch.
    destruct pre; reflexivity. }
  rewrite Hrun.
  rewrite <- (firstn_skipn k pre) in Hv. rewrite <- (firstn_skipn k vals) in Hq.
  apply Forall2_app_inv_l in Hv. destruct Hv as [vA [vB [HA [HB Hvv]]]].
  pose proof (Forall2_length HA) as HlA. rewrite length_firstn in HlA.
  assert (HvA : vA = firstn k vals /\ vB = skipn k vals).
  { apply app_split_len; [rewrite length_firstn; lia|].
    rewrite firstn_skipn. symmetry; exact Hvv. }
  destruct HvA as [-> ->].
  apply Forall_app in Hq. destruct Hq as [HqA _].
  destruct (new_rows_decoded cols (firstn k vals) (firstn k vals) (st_next_id st)
              (decoded_quote_free _ HqA)) as [rows [Hnew HF]].
  destruct (batch_loop_blocks t cols bs (length pre / bs) (firstn k pre) (skipn k pre ++ e :: post)
              (firstn k vals) st rows (st_next_id st + length (firstn k vals))%nat Hnf Hcols Hbs)
    as [st1 (G1 & G2 & G3)];
    [rewrite length_firstn; unfold k; lia|exact HA|exact Hnew|].
  assert (Hfail : batch_loop t cols bs [] 0 (skipn k pre ++ e :: post) st1 = (Raise (KeyError c), st1))
    by (apply (batch_loop_fail t cols bs (skipn k pre) (skipn k vals)); auto;
        rewrite length_skipn; simpl; lia).
  destruct G1 as (S1 & _ & _ & _ & _ & T1).
  split; [rewrite G3, Hfail; reflexivity|].
  split; [apply run_events_eq; rewrite G3, Hfail; exact T1|].
  rewrite G3, Hfail.
  exists rows. split; [rewrite S1, String.eqb_refl; reflexivity|].
  assert (Hl : length rows = length (firstn k vals)) by (symmetry; exact (Forall2_length HF)).
  rewrite Hl, length_firstn. lia.
Qed.

Lemma set_table_other tb t rows t' : t' <> t -> set_table tb t rows t' = tb t'.
Proof. intros H; unfold set_table; apply String.eqb_neq in H; rewrite H; reflexivity. Qed.

Lemma set_table_same tb t rows : set_table tb t rows t = rows.
Proof. unfold set_table; rewrite String.eqb_refl; reflexivity. Qed.

(** X4: on a store without faults, for a record with a column besides [ID] and [datecreated], [insert_data_to_table] appends one row, the record without the store-assigned columns and with a fresh ID, to the named table and leaves every other table unchanged. *)
Theorem insert_data_to_table_appends_record (table_name : string) (record_dict : Row) (st : State)
    (Hnf : no_faults st) (Hk : filter (fun kv => negb (excluded_col (fst kv))) record_dict <> []) :
  fst (insert_data_to_table table_name record_dict st) = Ok tt /\
  st_store (snd (insert_data_to_table table_name record_dict st)) table_name =
    st_store st table_name ++
    [("ID", string_of_nat (st_next_id st)) ::
       filter (fun kv => negb (excluded_col (fst kv))) record_dict] /\
  st_next_id (snd (insert_data_to_table table_name record_dict st)) = S (st_next_id st) /\
  (forall t, t <> table_name ->
     st_store (snd (insert_data_to_table table_name record_dict st)) t = st_store st t).
Proof.
  rewrite (insert_run table_name record_dict st Hnf Hk); simpl.
  split; [reflexivity|]. split; [apply set_table_same|]. split; [reflexivity|].
  intros t Ht; apply set_table_other; exact Ht.
Qed.

(** X6: [__read_sql_tables_to_cache] never changes the store.  For [activezones] it never succeeds and leaves the cache unchanged: its query is sent malformed, the store rejects it and the error propagates (a ResourceWarning becomes UnboundLocalError).  For any other table, on success the cache of the table becomes the table's rows and other caches are untouched; a ResourceWarning turns into UnboundLocalError and any other failure is re-raised, with the cache unchanged. *)
Theorem read_cache_outcome (table_name : string) (st : State) :
  st_store (snd (__read_sql_tables_to_cache table_name st)) = st_store st /\
  (table_name = "activezones" ->
   fst (__read_sql_tables_to_cache table_name st) =
     Raise (match st_fault st (st_nexec st) with
            | Some ResourceWarning => UnboundLocalError
            | Some e => e
            | None => DbError
            end) /\
   st_cache (snd (__read_sql_tables_to_cache table_name st)) = st_cache st) /\
  (table_name <> "activezones" ->
   match st_fault st (st_nexec st) with
   | None =>
       fst (__read_sql_tables_to_cache table_name st) = Ok tt /\
       st_cache (snd (__read_sql_tables_to_cache table_name st)) table_name = st_store st table_name /\
       (forall t, t <> table_name ->
          st_cache (snd (__read_sql_tables_to_cache table_name st)) t = st_cache st t)
   | Some ResourceWarning =>
       fst (__read_sql_tables_to_cache table_name st) = Raise UnboundLocalError /\
       st_cache (snd (__read_sql_tables_to_cache table_name st)) = st_cache st
   | Some e =>
       fst (__read_sql_tables_to_cache table_name st) = Raise e /\
       st_cache (snd (__read_sql_tables_to_cache table_name st)) = st_cache st
   end).
Proof.
  unfold __read_sql_tables_to_cache, try_rw, bind, exec, set_cache, raise, read_stmt.
  destruct (String.eqb table_name "activezones") eqn:Ea.
  - apply String.eqb_eq in Ea.
    destruct (st_fault st (st_nexec st)) as [e|] eqn:Hf; [destruct e|]; cbn [apply_stmt]; simpl;
      (split; [reflexivity|]); (split; [split; reflexivity|]); intros H; congruence.
  - apply String.eqb_neq in Ea.
    destruct (st_fault st (st_nexec st)) as [e|] eqn:Hf.
    + destruct e; simpl; (split; [reflexivity|]); (split; [intros H; congruence|]); intros _;
        split; reflexivity.
    + cbn [apply_stmt]. simpl. split; [reflexivity|]. split; [intros H; congruence|]. intros _.
      split; [reflexivity|]. split; [apply set_table_same|].
      intros t Ht; apply set_table_other; exact Ht.
Qed.


Lemma clear_run t st :
  no_faults st ->
  __clear_table t st =
  (Ok true, mkState (set_table (st_store st) t []) (st_next_id st) (st_cache st) (st_fault st)
                    (S (st_nexec st)) (st_clock st) (st_trace st ++ [EvExec (STruncate t) true])).
Proof. intros Hnf. unfold __clear_table, try_rw, bind, exec. rewrite (Hnf (st_nexec st)). reflexivity. Qed.

(** X8: [update_customer_data] on an empty list only truncates [customers]: it succeeds, sends the one TRUNCATE, empties that table and changes no other table or cache. *)
Theorem customers_empty_input_clears_table (st : State) (Hnf : no_faults st) :
  fst (update_customer_data [] st) = Ok tt /\
  run_events (update_customer_data []) st = [EvExec (STruncate "customers") true] /\
  st_store (snd (update_customer_data [] st)) "customers" = [] /\
  (forall t, t <> "customers" -> st_store (snd (update_customer_data [] st)) t = st_store st t) /\
  st_cache (snd (update_customer_data [] st)) = st_cache st.
Proof.
  assert (H : update_customer_data [] st =
    (Ok tt, mkState (set_table (st_store st) "customers" []) (st_next_id st) (st_cache st)
                    (st_fault st) (S (st_nexec st)) (st_clock st)
                    (st_trace st ++ [EvExec (STruncate "customers") true]))).
  { unfold update_customer_data. cbv zeta. unfold bind at 1. rewrite (clear_run "customers" st Hnf).
    reflexivity. }
  rewrite H. split; [reflexivity|]. split; [apply run_events_eq; rewrite H; reflexivity|].
  split; [apply set_table_same|]. split; [|reflexivity].
  intros t Ht; apply set_table_other; exact Ht.
Qed.

Lemma Forall2_compose {A B C} (R : A -> B -> Prop) (S : B -> C -> Prop) xs ys zs :
  Forall2 R xs ys -> Forall2 S ys zs -> Forall2 (fun x z => exists y, R x y /\ S y z) xs zs.
Proof.
  intros H; revert zs; induction H as [|x y xs ys Hxy H IH]; intros zs Hs;
    inversion Hs; subst; constructor; eauto.
Qed.

Lemma status_quote_free l : quote_free (if String.eqb l "Y" then "1" else "0").
Proof. destruct (String.eqb l "Y"); reflexivity. Qed.

Lemma customers_formatted (cs : list Row) :
  Forall (fun c => exists l name cid sn, customer_fields c l name cid sn /\
                   quote_free cid /\ quote_free sn) cs ->
  exists formatted vals ds,
    collect (map __format_customer_insert_data cs) = Ok formatted /\
    Forall (fun f => batch_columns f = customer_cols) formatted /\
    Forall2 (fun f v => row_values customer_cols f = Ok v) formatted vals /\
    Forall2 (fun v d => decode_all v = Some d) vals ds /\
    Forall2 (fun c d => exists l name cid sn, customer_fields c l name cid sn /\
               d = [cid; name; if String.eqb l "Y" then "1" else "0"; sn]) cs ds.
Proof.
  induction 1 as [|c cs (l & name & cid & sn & (H1 & H2 & H3 & H4) & Hq1 & Hq2) _ IH].
  - exists [], [], []. simpl. repeat split; constructor.
  - destruct IH as (fs & vs & ds & Hc & Hb & Hv & Hd & Hcd).
    set (name' := if has_quote name then double_quotes name else name).
    set (st := if String.eqb l "Y" then "1" else "0").
    exists ([("contextid", cid); ("customer", name'); ("status", st); ("stackid", sn)] :: fs),
           ([cid; name'; st; sn] :: vs), ([cid; name; st; sn] :: ds).
    simpl. unfold __format_customer_insert_data at 1. rewrite H1, H2, H3, H4. rewrite Hc.
    split; [reflexivity|]. split; [constructor; [reflexivity|exact Hb]|].
    split; [constructor; [reflexivity|exact Hv]|].
    split; [constructor; [|exact Hd]|].
    + simpl. rewrite (decode_no_quote cid Hq1). unfold name'. rewrite decode_insert_value.
      rewrite (decode_no_quote st (status_quote_free l)). rewrite (decode_no_quote sn Hq2).
      reflexivity.
    + constructor; [|exact Hcd]. exists l, name, cid, sn. repeat split; assumption.
Qed.

Lemma lookup_app k (r r' : Row) :
  lookup k (r ++ r')%list = match lookup k r with Some v => Some v | None => lookup k r' end.
Proof.
  induction r as [|[a b] r IH]; simpl; [reflexivity|].
  destruct (String.eqb a k); [reflexivity|exact IH].
Qed.

Lemma lookup_default k k0 (f : Row) :
  lookup k (if has_key k0 f then f else (f ++ [(k0, "none")])%list) =
  match lookup k f with Some v => Some v | None => if String.eqb k k0 then Some "none" else None end.
Proof.
  unfold has_key. destruct (lookup k0 f) as [w|] eqn:E0.
  - destruct (lookup k f) eqn:Ek; [reflexivity|].
    destruct (String.eqb k k0) eqn:Ekk; [apply String.eqb_eq in Ekk; congruence|reflexivity].
  - rewrite lookup_app. destruct (lookup k f); [reflexivity|]. simpl.
    destruct (String.eqb k k0) eqn:Ekk.
    + apply String.eqb_eq in Ekk; subst; rewrite String.eqb_refl; reflexivity.
    + rewrite String.eqb_sym, Ekk; reflexivity.
Qed.

Lemma has_key_lookup k (f : Row) v : lookup k f = Some v -> has_key k f = true.
Proof. unfold has_key; intros ->; reflexivity. Qed.

(** X10: the default-filling loop of [update_sannav_data] keeps every field a switchport has, adds "none" only for a missing zoneAlias, entitytype or remoteNodeWwn, sets missing activeZones to ["none"], and is idempotent. *)
Theorem fill_defaults_adds_only_missing (item : SwitchPort) :
  (forall k, lookup k (sp_fields (fill_defaults item)) =
     match lookup k (sp_fields item) with
     | Some v => Some v
     | None => if String.eqb k "zoneAlias" || String.eqb k "entitytype" ||
                  String.eqb k "remoteNodeWwn" then Some "none" else None
     end) /\
  sp_activeZones (fill_defaults item) =
    Some (match sp_activeZones item with Some zs => zs | None => ["none"] end) /\
  fill_defaults (fill_defaults item) = fill_defaults item.
Proof.
  assert (HL : forall k, lookup k (sp_fields (fill_defaults item)) =
     match lookup k (sp_fields item) with
     | Some v => Some v
     | None => if String.eqb k "zoneAlias" || String.eqb k "entitytype" ||
                  String.eqb k "remoteNodeWwn" then Some "none" else None
     end).
  { intros k. unfold fill_defaults; cbn [sp_fields].
    rewrite !lookup_default.
    destruct (lookup k (sp_fields item)); [reflexivity|].
    destruct (String.eqb k "zoneAlias"); [reflexivity|].
    destruct (String.eqb k "entitytype"); reflexivity. }
  split; [exact HL|]. split; [reflexivity|].
  assert (Hk : forall k, String.eqb k "zoneAlias" || String.eqb k "entitytype" ||
                         String.eqb k "remoteNodeWwn" = true ->
               has_key k (sp_fields (fill_defaults item)) = true).
  { intros k Hk. unfold has_key. rewrite HL, Hk. destruct (lookup k (sp_fields item)); reflexivity. }
  unfold fill_defaults at 1. cbn [sp_activeZones].
  rewrite (Hk "zoneAlias" eq_refl), (Hk "entitytype" eq_refl), (Hk "remoteNodeWwn" eq_refl).
  reflexivity.
Qed.

Lemma activezone_rows_ok runid eid zones : forall st az st',
  activezone_rows runid eid zones st = (Ok az, st') ->
  Forall2 (fun z r => exists zr rest zid,
             key_rows "name" z (st_cache st "zone") = zr :: rest /\ lookup "ID" zr = Some zid /\
             r = [("runid", runid); ("sannaventityid", eid); ("zoneid", zid)]) zones az.
Proof.
  induction zones as [|z zs IH]; intros st az st' H; simpl in H.
  - apply ret_ok_inv in H; destruct H as [<- _]. constructor.
  - peel H found st1 H1. apply cache_find_ok_inv in H1; destruct H1 as [Hf Hc1].
    peel H item st2 H2. apply first_ok_inv in H2; destruct H2 as [rest [Hfr ->]].
    peel H zid st3 H3. apply get_ok_inv in H3; destruct H3 as [Hz ->].
    peel H az' st4 H4. apply ret_ok_inv in H; destruct H as [<- _].
    constructor.
    + exists item, rest, zid. rewrite <- Hf, Hfr. auto.
    + apply IH in H4. rewrite Hc1 in H4. exact H4.
Qed.

Lemma resolve_ids_extends ts fields : forall row st row' st',
  resolve_ids ts fields row st = (Ok row', st') -> exists suffix, row' = row ++ suffix.
Proof.
  induction ts as [|t ts IH]; intros row st row' st' H; simpl in H.
  - apply ret_ok_inv in H; destruct H as [<- _]. exists []; rewrite app_nil_r; reflexivity.
  - cbv zeta in H.
    peel H v st1 H1. peel H found st2 H2. peel H item st3 H3. peel H i st4 H4.
    destruct (IH _ _ _ _ H) as [suffix ->]. exists (((source_label t ++ "id")%string, i) :: suffix).
    rewrite <- app_assoc. reflexivity.
Qed.

(** X11: when [__format_sannav_insert_data] succeeds, the switchport has activeZones and the result holds one activezones row per zone, in order, carrying the run id, the port id and the ID of the first cached zone row with that name. *)
Theorem format_sannav_activezones (o : SwitchPort) (runid : string) (st : State)
    (d : Row * list Row)
    (H : fst (__format_sannav_insert_data o runid st) = Ok d) :
  exists zones port_id,
    sp_activeZones o = Some zones /\
    lookup "runid" (fst d) = Some runid /\ lookup "id" (fst d) = Some port_id /\
    Forall2 (fun z r => exists zr rest zid,
               key_rows "name" z (st_cache st "zone") = zr :: rest /\ lookup "ID" zr = Some zid /\
               r = [("runid", runid); ("sannaventityid", port_id); ("zoneid", zid)])
            zones (snd d).
Proof.
  destruct (__format_sannav_insert_data o runid st) as [r st'] eqn:Hrun.
  cbn [fst] in H; subst r. rename Hrun into H.
  unfold __format_sannav_insert_data in H.
  peel H cdt st1 H1. apply get_ok_inv in H1; destruct H1 as [_ ->]. cbv beta zeta in H.
  peel H rnw st1 H1. apply get_ok_inv in H1; destruct H1 as [_ ->].
  peel H port_id st1 H1. apply get_ok_inv in H1; destruct H1 as [_ ->].
  do 5 (let x := fresh "x" in let H1 := fresh "H1" in let st1 := fresh "st1" in
        peel H x st1 H1; apply get_ok_inv in H1; destruct H1 as [_ ->]).
  peel H row st1 H1.
  peel H zones st2 H2. peel H az st3 H3. apply ret_ok_inv in H; destruct H as [<- _].
  assert (Hc1 : st_cache st1 = st_cache st).
  { match type of H1 with resolve_ids ?a ?b ?c _ = _ =>
      destruct (readonly_resolve_ids a b c st) as (_ & R & _) end.
    rewrite H1 in R; exact R. }
  destruct (sp_activeZones o) as [zs|] eqn:Ez; [|discriminate].
  apply ret_ok_inv in H2; destruct H2 as [<- ->].
  destruct (resolve_ids_extends _ _ _ _ _ _ H1) as [suffix ->].
  exists zs, port_id. split; [reflexivity|]. cbn [fst snd].
  split; [reflexivity|]. split; [reflexivity|].
  apply activezone_rows_ok in H3. rewrite Hc1 in H3. exact H3.
Qed.

(** X12: on a store without faults, [__get_runid] inserts one run row stamped with the current time, then sends its run-id SELECT, which is malformed: the store rejects it and DbError leaves [__get_runid], so it never returns the run ids. *)
Theorem get_runid_inserts_run_then_raises (st : State) (Hnf : no_faults st) :
  fst (__get_runid st) = Raise DbError /\
  st_store (snd (__get_runid st)) "run" =
    st_store st "run" ++ [[("ID", string_of_nat (st_next_id st)); ("capturedatetime", st_clock st)]] /\
  st_next_id (snd (__get_runid st)) = S (st_next_id st) /\
  run_events __get_runid st =
    [EvExec (insert_stmt "run" [("capturedatetime", st_clock st)]) true;
     EvExec (SSelectRunId (st_clock st)) false].
Proof.
  set (new := [("ID", string_of_nat (st_next_id st)); ("capturedatetime", st_clock st)]).
  set (tb := set_table (st_store st) "run" (st_store st "run" ++ [new])).
  assert (H : __get_runid st =
    (Raise DbError,
     mkState tb (S (st_next_id st)) (st_cache st) (st_fault st) (S (S (st_nexec st))) (st_clock st)
             ((st_trace st ++ [EvExec (insert_stmt "run" [("capturedatetime", st_clock st)]) true]) ++
              [EvExec (SSelectRunId (st_clock st)) false]))).
  { unfold __get_runid, now, bind, try_rw.
    rewrite (insert_run "run" [("capturedatetime", st_clock st)] st Hnf)
      by (unfold kept_cols; simpl; discriminate).
    unfold exec. cbn [st_fault st_nexec]. rewrite (Hnf (S (st_nexec st))). reflexivity. }
  rewrite H. cbn [fst snd st_store st_next_id].
  split; [reflexivity|]. split; [unfold tb, set_table; rewrite String.eqb_refl; reflexivity|].
  split; [reflexivity|].
  apply run_events_eq. rewrite H. cbn [snd st_trace]. rewrite <- app_assoc. reflexivity.
Qed.

Lemma only_capture P {A} (m : M A) : only P m -> only P (capture m).
Proof.
  intros Hm st. unfold capture. destruct (Hm st) as [evs [H F]].
  destruct (m st) as [r st1]. simpl in *. eauto.
Qed.

Lemma only_resolve_ids (P : Event -> Prop) ts fields :
  (forall t kc k b, P (EvLookup t kc k b)) -> forall row, only P (resolve_ids ts fields row).
Proof.
  intros HP. induction ts as [|t ts IH]; intros row; simpl; [apply only_ret|].
  apply only_bind; [apply only_get|intros v].
  apply only_bind; [apply only_cache_find; auto|intros found].
  apply only_bind; [apply only_first|intros item].
  apply only_bind; [apply only_get|intros i]. apply IH.
Qed.

Lemma only_activezone_rows (P : Event -> Prop) runid eid zones :
  (forall t kc k b, P (EvLookup t kc k b)) -> only P (activezone_rows runid eid zones).
Proof.
  intros HP. induction zones as [|z zs IH]; simpl; [apply only_ret|].
  apply only_bind; [apply only_cache_find; auto|intros found].
  apply only_bind; [apply only_first|intros item].
  apply only_bind; [apply only_get|intros i].
  apply only_bind; [exact IH|intros rest]. apply only_ret.
Qed.

Lemma only_format (P : Event -> Prop) o runid :
  (forall t kc k b, P (EvLookup t kc k b)) -> only P (__format_sannav_insert_data o runid).
Proof.
  intros HP. unfold __format_sannav_insert_data.
  apply only_bind; [apply only_get|intros cdt]. cbv zeta.
  apply only_bind; [apply only_get|intros rnw].
  do 6 (apply only_bind; [apply only_get|intros ?]).
  apply only_bind; [apply only_resolve_ids; exact HP|intros row].
  apply only_bind; [destruct (sp_activeZones o); [apply only_ret|apply only_raise]|intros zones].
  apply only_bind; [apply only_activezone_rows; exact HP|intros az]. apply only_ret.
Qed.

Lemma only_gather P {A} (ms : list (M A)) : Forall (only P) ms -> only P (gather ms).
Proof.
  induction 1 as [|m ms Hm _ IH]; simpl; [apply only_ret|].
  apply only_bind; [apply only_capture; exact Hm|intros r].
  apply only_bind; [exact IH|intros rs]. apply only_ret.
Qed.

Lemma only_map_get P k l : only P (map_get k l).
Proof.
  induction l as [|x l IH]; simpl; [apply only_ret|].
  apply only_bind; [apply only_get|intros v]. apply only_bind; [exact IH|intros vs]. apply only_ret.
Qed.

Lemma only_ensure_name (P : Event -> Prop) t v :
  (forall kc k b, P (EvLookup t kc k b)) -> (forall b, P (EvExec (insert_stmt t [("name", v)]) b)) ->
  only P (ensure_name t v).
Proof.
  intros H1 H2. unfold ensure_name. apply only_bind; [apply only_cache_find; auto|intros found].
  destruct found; [apply only_insert_data_to_table; exact H2|apply only_ret].
Qed.

Lemma sannav_event_table t : In t sannav_id_tables_written ->
  (forall b, sannav_build_event (EvExec (read_stmt t) b)) /\ sannav_build_event (EvReload t) /\
  (forall v b, sannav_build_event (EvExec (insert_stmt t [("name", v)]) b)).
Proof.
  intros Ht.
  assert (E : String.eqb t "activezones" = false).
  { unfold sannav_id_tables_written in Ht; simpl in Ht.
    repeat (destruct Ht as [<-|Ht]; [reflexivity|]). destruct Ht. }
  split; [intros b; unfold read_stmt; rewrite E; exact Ht|]. split; [exact Ht|].
  intros v b. unfold insert_stmt. simpl. right; exact Ht.
Qed.

Lemma only_sannav_step sannav table :
  In table update_sannav_id_tables -> only sannav_build_event (sannav_id_table_step sannav table).
Proof.
  intros Hin. unfold sannav_id_table_step.
  destruct (String.eqb table "activeZones") eqn:Ea.
  - destruct (sannav_event_table "zone" ltac:(left; reflexivity)) as (S1 & S2 & S3).
    apply only_bind.
    + apply only_for_each. intros x _. apply only_ensure_name; [intros; exact I|apply S3].
    + intros _. apply only_read_cache; assumption.
  - assert (Ht : In table sannav_id_tables_written).
    { simpl in Hin. unfold sannav_id_tables_written; simpl.
      destruct Hin as [<-|Hin]; [discriminate|tauto]. }
    destruct (sannav_event_table table Ht) as (S1 & S2 & S3).
    apply only_bind; [apply only_map_get|intros values].
    apply only_bind.
    + apply only_for_each. intros x _. apply only_ensure_name; [intros; exact I|apply S3].
    + intros _. apply only_read_cache; assumption.
Qed.

(** X13: the SanNav pass up to its batch writes only inserts into [run] and the five id tables zone, fabric, health, status and switch; it never writes [entitytype] or any other table. *)
Theorem sannav_build_never_writes_entitytype (sannav : list SwitchPort) :
  only sannav_build_event (sannav_build sannav).
Proof.
  unfold sannav_build. cbv zeta.
  apply only_bind; [apply only_for_each; intros x Hx; apply only_sannav_step; exact Hx|intros u].
  apply only_bind.
  { unfold __get_runid. apply only_bind; [apply only_now|intros stamp].
    apply only_bind.
    - apply only_try_rw; [|apply only_raise]. apply only_insert_data_to_table.
      intros b. unfold insert_stmt. simpl. left; reflexivity.
    - intros _. apply only_try_rw; [|apply only_raise]. apply only_exec. intros b; exact I. }
  intros ids.
  apply only_bind; [apply only_first|intros r0].
  apply only_bind; [apply only_get|intros runid].
  apply only_bind.
  { apply only_gather. apply Forall_forall. intros m Hm. apply in_map_iff in Hm.
    destruct Hm as (o & <- & _). apply only_format. intros; exact I. }
  intros results. apply only_bind; [apply only_of_res|intros formatted]. apply only_ret.
Qed.

Lemma byte_val_of_Z z : byte_val (byte_of_Z z) = (z mod 256)%Z.
Proof.
  unfold byte_val, byte_of_Z.
  pose proof (Byte.to_of_N_option_map (Z.to_N (z mod 256))) as H.
  pose proof (Z.mod_pos_bound z 256 ltac:(lia)) as Hb.
  assert (Hle : (Z.to_N (z mod 256) <=? 255)%N = true) by (apply N.leb_le; lia).
  rewrite Hle in H.
  destruct (Byte.of_N (Z.to_N (z mod 256))) as [b|]; [|discriminate].
  injection H as H. rewrite H. apply Z2N.id. lia.
Qed.

Lemma int16_pack z : int16_range z -> int16_le (byte_of_Z z) (byte_of_Z (z / 256)) = z.
Proof.
  unfold int16_range, int16_le; intros Hz. rewrite !byte_val_of_Z.
  pose proof (Z.div_mod z 256 ltac:(lia)). pose proof (Z.mod_pos_bound z 256 ltac:(lia)).
  pose proof (Z.div_mod (z / 256) 256 ltac:(lia)).
  pose proof (Z.mod_pos_bound (z / 256) 256 ltac:(lia)).
  remember (z / 256 / 256)%Z as q2. remember (z / 256 mod 256)%Z as b.
  remember (z / 256)%Z as q. remember (z mod 256)%Z as a.
  destruct (Z.ltb_spec (a + 256 * b) 32768); lia.
Qed.

Lemma uint32_pack z : (0 <= z < 4294967296)%Z ->
  uint32_le (byte_of_Z z) (byte_of_Z (z / 256)) (byte_of_Z (z / 65536)) (byte_of_Z (z / 16777216)) = z.
Proof.
  unfold uint32_le; intros Hz. rewrite !byte_val_of_Z.
  assert (E1 : (z / 65536 = z / 256 / 256)%Z) by (rewrite Z.div_div by lia; reflexivity).
  assert (E2 : (z / 16777216 = z / 256 / 256 / 256)%Z) by (rewrite !Z.div_div by lia; reflexivity).
  rewrite E1, E2.
  pose proof (Z.div_mod z 256 ltac:(lia)). pose proof (Z.mod_pos_bound z 256 ltac:(lia)).
  pose proof (Z.div_mod (z / 256) 256 ltac:(lia)).
  pose proof (Z.mod_pos_bound (z / 256) 256 ltac:(lia)).
  pose proof (Z.div_mod (z / 256 / 256) 256 ltac:(lia)).
  pose proof (Z.mod_pos_bound (z / 256 / 256) 256 ltac:(lia)).
  pose proof (Z.div_mod (z / 256 / 256 / 256) 256 ltac:(lia)).
  pose proof (Z.mod_pos_bound (z / 256 / 256 / 256) 256 ltac:(lia)).
  remember (z / 256 / 256 / 256 / 256)%Z as q4. remember (z / 256 / 256 / 256 mod 256)%Z as d.
  remember (z / 256 / 256 / 256)%Z as q3. remember (z / 256 / 256 mod 256)%Z as c.
  remember (z / 256 / 256)%Z as q2. remember (z / 256 mod 256)%Z as b.
  remember (z / 256)%Z as q. remember (z mod 256)%Z as a.
  lia.
Qed.

(** X15: the result of [__handle_datetimeoffset] does not depend on the last four bytes, the time-zone offset. *)
Theorem handle_datetimeoffset_ignores_offset (v o1 o2 : list Byte.byte)
    (Hv : length v = 16%nat) (H1 : length o1 = 4%nat) (H2 : length o2 = 4%nat) :
  __handle_datetimeoffset (v ++ o1) = __handle_datetimeoffset (v ++ o2).
Proof.
  do 16 (destruct v as [|? v]; [discriminate|]). destruct v; [|discriminate].
  do 4 (destruct o1 as [|? o1]; [discriminate|]). destruct o1; [|discriminate].
  do 4 (destruct o2 as [|? o2]; [discriminate|]). destruct o2; [|discriminate].
  reflexivity.
Qed.

(** X16: on the little-endian packing of fields in range, [__handle_datetimeoffset] returns year-month-day, then " +" and eight spaces, then hour:minute:second.fraction, each field printed in decimal. *)
Theorem handle_datetimeoffset_pack (year month day hour minute second fraction tz_hour tz_minute : Z)
    (Hy : int16_range year) (Hmo : int16_range month) (Hd : int16_range day)
    (Hh : int16_range hour) (Hmi : int16_range minute) (Hs : int16_range second)
    (Hf : (0 <= fraction < 4294967296)%Z)
    (Hth : int16_range tz_hour) (Htm : int16_range tz_minute) :
  __handle_datetimeoffset (pack_6hI2h year month day hour minute second fraction tz_hour tz_minute) =
  Some (str_int year ++ "-" ++ str_int month ++ "-" ++ str_int day ++ " +        " ++
        str_int hour ++ ":" ++ str_int minute ++ ":" ++ str_int second ++ "." ++ str_int fraction)%string.
Proof.
  unfold __handle_datetimeoffset, pack_6hI2h, pack_int16, pack_uint32. simpl.
  rewrite !int16_pack by assumption. rewrite uint32_pack by exact Hf. reflexivity.
Qed.

Lemma handle_datetimeoffset_pack_witness :
  int16_range 2024 /\ int16_range 5 /\ (0 <= 123 < 4294967296)%Z /\ int16_range (-5) /\
  __handle_datetimeoffset (pack_6hI2h 2024 5 17 13 4 59 123 (-5) 30) =
    Some "2024-5-17 +        13:4:59.123".
Proof.
  assert (R : forall z, (-32768 <=? z)%Z && (z <? 32768)%Z = true -> int16_range z).
  { intros z Hz. apply andb_true_iff in Hz as [A B]. apply Z.leb_le in A. apply Z.ltb_lt in B.
    split; assumption. }
  split; [apply R; reflexivity|]. split; [apply R; reflexivity|]. split; [lia|].
  split; [apply R; reflexivity|].
  rewrite (handle_datetimeoffset_pack 2024 5 17 13 4 59 123 (-5) 30); try (apply R; reflexivity); [|lia].
  reflexivity.
Defined.

Lemma handle_datetimeoffset_ignores_offset_witness :
  length (firstn 16 (pack_6hI2h 2024 5 17 13 4 59 123 (-5) 30)) = 16%nat /\
  length (pack_int16 (-5) ++ pack_int16 30) = 4%nat /\
  length [Byte.x00; Byte.x00; Byte.x00; Byte.x00] = 4%nat /\
  __handle_datetimeoffset (firstn 16 (pack_6hI2h 2024 5 17 13 4 59 123 (-5) 30) ++
                           (pack_int16 (-5) ++ pack_int16 30)) =
  __handle_datetimeoffset (firstn 16 (pack_6hI2h 2024 5 17 13 4 59 123 (-5) 30) ++
                           [Byte.x00; Byte.x00; Byte.x00; Byte.x00]).
Proof.
  split; [reflexivity|]. split; [reflexivity|]. split; [reflexivity|].
  apply handle_datetimeoffset_ignores_offset; reflexivity.
Defined.

(** X17: [__connect_ms_sql] treats an empty username or password as no credentials, prints a connection string with UID and PWD when both are given, and turns a ResourceWarning at connect time into UnboundLocalError. *)
Theorem connect_ms_sql_credentials (username password db_server database driver trust_certificates : string)
    (connect_fault : option Exc) :
  ((username = "" \/ password = "") ->
   __connect_ms_sql username password db_server database driver trust_certificates connect_fault =
   __connect_ms_sql "" "" db_server database driver trust_certificates connect_fault) /\
  (username <> "" -> password <> "" ->
   In ("Connection string used for connecting: Driver=" ++ driver ++ ";Server=" ++ db_server ++
       ";Database=" ++ database ++ ";UID=" ++ username ++ ";PWD=" ++ password ++
       ";TrustServerCertificate=" ++ trust_certificates)%string
      (fst (__connect_ms_sql username password db_server database driver trust_certificates connect_fault))) /\
  (connect_fault = Some ResourceWarning ->
   snd (__connect_ms_sql username password db_server database driver trust_certificates connect_fault) =
   Raise UnboundLocalError).
Proof.
  split; [|split].
  - intros H. unfold __connect_ms_sql.
    assert (E : (String.eqb username "" || String.eqb password "") = true).
    { destruct H as [->| ->]; [reflexivity|apply orb_true_r]. }
    rewrite E. reflexivity.
  - intros Hu Hp. unfold __connect_ms_sql.
    apply String.eqb_neq in Hu, Hp. rewrite Hu, Hp. simpl.
    destruct connect_fault as [[]|]; simpl; auto.
  - intros ->. unfold __connect_ms_sql. reflexivity.
Qed.

(** X18: in automated mode [update_data_from_sources] ignores the username and password it is given, uses WinUsername and WinPassword from the environment, exits when WinPassword is missing, and connects without credentials when it is empty. *)
Theorem open_connection_automated (environ : Row) (win_user : string)
    (username password db_server database driver trust_certificates : string)
    (connect_fault : option Exc)
    (Hu : lookup "WinUsername" environ = Some win_user) :
  (lookup "WinPassword" environ = None ->
   open_connection true environ username password db_server database driver trust_certificates
                   connect_fault =
   ([], Raise (SystemExit ("No password is set in WinPassword for user: " ++ win_user ++
                           ". Terminating function update_data_from_sources.")%string))) /\
  (forall username' password',
   open_connection true environ username password db_server database driver trust_certificates
                   connect_fault =
   open_connection true environ username' password' db_server database driver trust_certificates
                   connect_fault) /\
  (lookup "WinPassword" environ = Some "" ->
   open_connection true environ username password db_server database driver trust_certificates
                   connect_fault =
   __connect_ms_sql "" "" db_server database driver trust_certificates connect_fault).
Proof.
  unfold open_connection, source_credentials. rewrite Hu.
  split; [intros ->; reflexivity|]. split; [intros; reflexivity|].
  intros ->. apply connect_ms_sql_credentials. right; reflexivity.
Qed.

Lemma read_step_rw t st :
  t <> "activezones" ->
  (forall n, st_fault st n = None \/ st_fault st n = Some ResourceWarning) ->
  (try_rw (__read_sql_tables_to_cache t) (ret tt) st =
     (Ok tt, mkState (st_store st) (st_next_id st) (set_table (st_cache st) t (st_store st t))
                     (st_fault st) (S (st_nexec st)) (st_clock st)
                     (st_trace st ++ [EvExec (SSelectAll t) true; EvReload t]))) \/
  (fst (try_rw (__read_sql_tables_to_cache t) (ret tt) st) = Raise UnboundLocalError /\
   st_store (snd (try_rw (__read_sql_tables_to_cache t) (ret tt) st)) = st_store st /\
   st_fault (snd (try_rw (__read_sql_tables_to_cache t) (ret tt) st)) = st_fault st).
Proof.
  intros Ht Hrw. unfold try_rw at 1, __read_sql_tables_to_cache, bind, exec, set_cache, read_stmt.
  apply String.eqb_neq in Ht. rewrite Ht.
  unfold try_rw. cbv beta zeta. destruct (Hrw (st_nexec st)) as [E|E]; rewrite E.
  - left. cbn [apply_stmt st_store st_next_id st_cache st_fault st_nexec st_clock st_trace]. rewrite <- app_assoc. reflexivity.
  - right. simpl. auto.
Qed.

Lemma reads_loop (l : list string) : ~ In "activezones" l -> forall st,
  (forall n, st_fault st n = None \/ st_fault st n = Some ResourceWarning) ->
  let r := for_each l (fun table => try_rw (__read_sql_tables_to_cache table) (ret tt)) st in
  st_store (snd r) = st_store st /\ st_fault (snd r) = st_fault st /\
  ((fst r = Ok tt /\ forall t, st_cache (snd r) t = if in_dec string_dec t l then st_store st t
                                                     else st_cache st t) \/
   fst r = Raise UnboundLocalError).
Proof.
  intros Hl. induction l as [|t l IH]; intros st Hrw; cbv zeta; simpl for_each.
  - split; [reflexivity|]. split; [reflexivity|]. left; split; [reflexivity|]. intros t; reflexivity.
  - unfold bind.
    assert (Ht : t <> "activezones") by (intros ->; apply Hl; left; reflexivity).
    assert (Hl' : ~ In "activezones" l) by (intros H; apply Hl; right; exact H).
    destruct (read_step_rw t st Ht Hrw) as [E|(E1 & E2 & E3)].
    + rewrite E.
      set (st1 := mkState (st_store st) (st_next_id st) (set_table (st_cache st) t (st_store st t))
                          (st_fault st) (S (st_nexec st)) (st_clock st)
                          (st_trace st ++ [EvExec (SSelectAll t) true; EvReload t])).
      destruct (IH Hl' st1 Hrw) as (G1 & G2 & G3). cbv zeta in G1, G2, G3.
      split; [exact G1|]. split; [exact G2|].
      destruct G3 as [[G3 G4]|G3]; [left|right; exact G3].
      split; [exact G3|]. intros t'. rewrite G4. unfold st1; cbn [st_store st_cache].
      unfold set_table. destruct (in_dec string_dec t' l) as [Hin|Hin];
        destruct (in_dec string_dec t' (t :: l)) as [Hin'|Hin']; simpl in Hin'.
      * reflexivity.
      * exfalso; tauto.
      * destruct (String.eqb t' t) eqn:Et; [apply String.eqb_eq in Et; subst; reflexivity|].
        apply String.eqb_neq in Et. destruct Hin' as [Heq|Hin']; [congruence|contradiction].
      * destruct (String.eqb t' t) eqn:Et;
          [apply String.eqb_eq in Et; subst; exfalso; apply Hin'; left; reflexivity|].
        reflexivity.
    + destruct (try_rw (__read_sql_tables_to_cache t) (ret tt) st) as [r1 st1].
      cbn [fst snd] in E1, E2, E3. subst r1. cbn [fst snd].
      split; [exact E2|]. split; [exact E3|]. right; reflexivity.
Qed.

Lemma bind_raise_state {A B} (m : M A) (k : A -> M B) st e st' :
  m st = (Raise e, st') -> bind m k st = (Raise e, st').
Proof. intros H; unfold bind; rewrite H; reflexivity. Qed.

Lemma read_activezones_raises st :
  st_fault st (st_nexec st) = None \/ st_fault st (st_nexec st) = Some ResourceWarning ->
  exists e, (e = DbError \/ e = UnboundLocalError) /\
    fst (try_rw (__read_sql_tables_to_cache "activezones") (ret tt) st) = Raise e /\
    st_store (snd (try_rw (__read_sql_tables_to_cache "activezones") (ret tt) st)) = st_store st /\
    st_cache (snd (try_rw (__read_sql_tables_to_cache "activezones") (ret tt) st)) = st_cache st.
Proof.
  intros Hf. unfold __read_sql_tables_to_cache, try_rw, bind, exec, raise, read_stmt.
  cbv beta zeta. destruct Hf as [E|E]; rewrite E; cbn [apply_stmt]; simpl;
    [exists DbError|exists UnboundLocalError]; repeat split; auto.
Qed.

(** X19: the cache-loading loops of [update_data_from_sources] never change the store and never complete: when statements only fail with ResourceWarning, either an id-table read stops them with UnboundLocalError, or all nine id tables are loaded into their caches and the malformed [activezones] query then fails, with DbError (or UnboundLocalError if that read meets a ResourceWarning). *)
Theorem load_table_caches_never_completes (st : State)
    (Hrw : forall n, st_fault st n = None \/ st_fault st n = Some ResourceWarning) :
  st_store (snd (load_table_caches st)) = st_store st /\
  ((exists e, (e = DbError \/ e = UnboundLocalError) /\ fst (load_table_caches st) = Raise e /\
     forall t, In t Storage_Id_Tables -> st_cache (snd (load_table_caches st)) t = st_store st t) \/
   fst (load_table_caches st) = Raise UnboundLocalError).
Proof.
  unfold load_table_caches, bind.
  assert (Hna : ~ In "activezones" Storage_Id_Tables) by (simpl; intuition discriminate).
  destruct (reads_loop Storage_Id_Tables Hna st Hrw) as (G1 & G2 & G3). cbv zeta in G1, G2, G3.
  destruct (for_each Storage_Id_Tables _ st) as [r1 st1]. cbn [fst snd] in G1, G2, G3.
  destruct G3 as [[-> G4]| ->]; [|split; [exact G1|right; reflexivity]].
  assert (Hrw1 : forall n, st_fault st1 n = None \/ st_fault st1 n = Some ResourceWarning)
    by (rewrite G2; exact Hrw).
  destruct (read_activezones_raises st1 (Hrw1 (st_nexec st1))) as (e & He & Hr & Hs & Hc).
  destruct (try_rw (__read_sql_tables_to_cache "activezones") (ret tt) st1) as [r2 st2] eqn:E.
  cbn [fst snd] in Hr, Hs, Hc. subst r2.
  unfold Storage_Core_Tables. cbn [for_each]. rewrite (bind_raise_state _ _ st1 e st2 E).
  cbn [fst snd]. split; [congruence|left].
  exists e. split; [exact He|]. split; [reflexivity|].
  intros t Ht. rewrite Hc, G4. destruct (in_dec string_dec t Storage_Id_Tables); [reflexivity|contradiction].
Qed.

(** X9: [update_customer_data] on a non-empty list of well-formed customer records replaces the [customers] table by one row per record, in order, with status 1 exactly when L is Y, and reloads the [customers] cache from it; it then raises DbError, because its UpdateTracking statement is rejected by the store and only ResourceWarning is caught; no table other than [customers] changes. *)
Theorem update_customer_data_refresh (customers : list Row) (st : State)
    (Hnf : no_faults st) (Hne : customers <> [])
    (Hc : Forall (fun c => exists l name cid sn, customer_fields c l name cid sn /\
                   quote_free cid /\ quote_free sn) customers) :
  fst (update_customer_data customers st) = Raise DbError /\
  Forall2 (fun c r => exists n l name cid sn, customer_fields c l name cid sn /\
             r = [("ID", n); ("contextid", cid); ("customer", name);
                  ("status", if String.eqb l "Y" then "1" else "0"); ("stackid", sn)])
          customers (st_store (snd (update_customer_data customers st)) "customers") /\
  st_cache (snd (update_customer_data customers st)) "customers" =
    st_store (snd (update_customer_data customers st)) "customers" /\
  (forall t, t <> "customers" ->
     st_store (snd (update_customer_data customers st)) t = st_store st t).
Proof.
  destruct (customers_formatted customers Hc) as (fs & vals & ds & Hcol & Hb & Hv & Hd & Hcd).
  assert (Hlen : length fs = length customers).
  { clear -Hcol. revert fs Hcol. induction customers as [|c cs IH]; intros fs H; simpl in H.
    - injection H as <-; reflexivity.
    - destruct (__format_customer_insert_data c); [|discriminate].
      destruct (collect (map __format_customer_insert_data cs)) eqn:E; [|discriminate].
      injection H as <-. simpl. f_equal. apply IH. reflexivity. }
  assert (Hfne : fs <> []) by (intros ->; destruct customers; simpl in Hlen; congruence).
  assert (Hhd : batch_columns (hd [] fs) = customer_cols).
  { destruct fs as [|f fs']; [congruence|]. inversion Hb; assumption. }
  set (st1 := mkState (set_table (st_store st) "customers" []) (st_next_id st) (st_cache st)
                      (st_fault st) (S (st_nexec st)) (st_clock st)
                      (st_trace st ++ [EvExec (STruncate "customers") true])).
  assert (Hnf1 : no_faults st1) by exact Hnf.
  rewrite <- Hhd in Hv.
  assert (Hcols : batch_columns (hd [] fs) <> []) by (rewrite Hhd; discriminate).
  destruct (batch_run "customers" fs 250 vals ds st1 Hnf1 ltac:(lia) Hfne Hcols Hv Hd)
    as (rows & HR & Hok & A1 & A2 & A3 & A4 & A5 & A6).
  destruct (insert_data_to_table_batch "customers" fs 250 st1) as [r2 st2] eqn:E2.
  simpl in Hok, A1, A2, A3, A4, A5, A6. subst r2.
  assert (Hnf2 : no_faults st2) by (intros n; rewrite A4; apply Hnf).
  set (st3 := mkState (st_store st2) (st_next_id st2)
                (set_table (st_cache st2) "customers" (st_store st2 "customers"))
                (st_fault st2) (S (st_nexec st2)) (st_clock st2)
                (st_trace st2 ++ [EvExec (SSelectAll "customers") true; EvReload "customers"])).
  assert (Hnf3 : no_faults st3) by exact Hnf2.
  assert (H : update_customer_data customers st =
    (Raise DbError, mkState (st_store st3) (st_next_id st3) (st_cache st3) (st_fault st3)
                            (S (st_nexec st3)) (st_clock st3)
                            (st_trace st3 ++ [EvExec (STracking "customers" (st_clock st3)) false]))).
  { unfold update_customer_data. cbv zeta. unfold bind at 1. rewrite (clear_run "customers" st Hnf).
    fold st1. rewrite length_map. destruct customers as [|c0 cs0]; [congruence|].
    cbn [negb Nat.ltb Nat.leb length].
    unfold try_rw at 1, bind at 1. rewrite Hcol. cbn [of_res ret].
    unfold bind at 1, ret at 1. cbv beta iota. unfold bind at 1. rewrite E2.
    rewrite (read_cache_run "customers" st2 Hnf2) by discriminate. fold st3.
    unfold try_rw. rewrite (timestamp_run "customers" st3 Hnf3). reflexivity. }
  rewrite H. cbn [fst snd st_store st_cache]. split; [reflexivity|].
  assert (Hs : st_store st2 "customers" = rows).
  { rewrite A1, String.eqb_refl. unfold st1; cbn [st_store]. reflexivity. }
  split; [|split].
  - unfold st3; cbn [st_store]. rewrite Hs.
    rewrite Hhd in HR. pose proof (Forall2_compose _ _ _ _ _ Hcd HR) as HF.
    eapply Forall2_impl; [|exact HF]. simpl.
    intros c r (d & (l & name & cid & sn & Hf & ->) & n & ->).
    exists n, l, name, cid, sn. split; [exact Hf|reflexivity].
  - unfold st3; cbn [st_store st_cache]. apply set_table_same.
  - intros t Ht1. unfold st3; cbn [st_store]. rewrite A1.
    destruct (String.eqb t "customers") eqn:E; [apply String.eqb_eq in E; congruence|].
    unfold st1; cbn [st_store]. apply set_table_other; exact Ht1.
Qed.

Lemma insert_batch_in_chunks_witness :
  no_faults (clean_state empty_tables 1) /\ (0 < 2)%nat /\ abc_records <> [] /\
  batch_columns (hd [] abc_records) <> [] /\
  Forall2 (fun e v => row_values (batch_columns (hd [] abc_records)) e = Ok v)
    abc_records [["a"]; ["b"]; ["c"]] /\
  Forall (Forall quote_free) [["a"]; ["b"]; ["c"]] /\
  run_events (insert_data_to_table_batch "webs" abc_records 2) (clean_state empty_tables 1) =
    [EvExec (SInsert "webs" ["name"] [["a"]; ["b"]]) true;
     EvExec (SInsert "webs" ["name"] [["c"]]) true].
Proof.
  assert (Hnf : no_faults (clean_state empty_tables 1)) by (intros n; reflexivity).
  assert (Hne : abc_records <> []) by discriminate.
  assert (Hcols : batch_columns (hd [] abc_records) <> []) by (vm_compute; discriminate).
  assert (Hv : Forall2 (fun e v => row_values (batch_columns (hd [] abc_records)) e = Ok v)
                 abc_records [["a"]; ["b"]; ["c"]]) by (repeat constructor).
  assert (Hq : Forall (Forall quote_free) [["a"]; ["b"]; ["c"]]) by (repeat constructor).
  split; [exact Hnf|]. split; [lia|]. split; [exact Hne|]. split; [exact Hcols|].
  split; [exact Hv|]. split; [exact Hq|].
  rewrite (proj1 (proj2 (insert_batch_in_chunks "webs" abc_records _ 2 _ Hnf ltac:(lia) Hne Hcols Hv Hq))).
  reflexivity.
Defined.

Lemma insert_batch_missing_column_witness :
  no_faults (clean_state empty_tables 1) /\ (0 < 2)%nat /\
  Forall2 (fun r v => row_values (batch_columns (hd [] (abc_records ++ [("other", "x")] :: []))) r = Ok v)
    abc_records [["a"]; ["b"]; ["c"]] /\
  Forall (Forall quote_free) [["a"]; ["b"]; ["c"]] /\
  row_values (batch_columns (hd [] (abc_records ++ [("other", "x")] :: []))) [("other", "x")] =
    Raise (KeyError "name") /\
  fst (insert_data_to_table_batch "webs" (abc_records ++ [("other", "x")] :: []) 2
         (clean_state empty_tables 1)) = Raise (KeyError "name") /\
  run_events (insert_data_to_table_batch "webs" (abc_records ++ [("other", "x")] :: []) 2)
             (clean_state empty_tables 1) =
    [EvExec (SInsert "webs" ["name"] [["a"]; ["b"]]) true].
Proof.
  assert (Hnf : no_faults (clean_state empty_tables 1)) by (intros n; reflexivity).
  assert (Hv : Forall2 (fun r v => row_values (batch_columns (hd [] (abc_records ++ [("other", "x")] :: []))) r = Ok v)
                 abc_records [["a"]; ["b"]; ["c"]]) by (repeat constructor).
  assert (Hq : Forall (Forall quote_free) [["a"]; ["b"]; ["c"]]) by (repeat constructor).
  assert (He : row_values (batch_columns (hd [] (abc_records ++ [("other", "x")] :: []))) [("other", "x")] =
               Raise (KeyError "name")) by reflexivity.
  destruct (insert_batch_missing_column "webs" abc_records [] [("other", "x")] _ 2 "name" _
              Hnf ltac:(lia) Hv Hq He) as (G1 & G2 & _).
  split; [exact Hnf|]. split; [lia|]. split; [exact Hv|]. split; [exact Hq|]. split; [exact He|].
  split; [exact G1|]. etransitivity; [exact G2|reflexivity].
Defined.

Lemma insert_data_to_table_appends_record_witness :
  no_faults (clean_state empty_tables 4) /\
  st_store (snd (insert_data_to_table "webs" [("ID", "9"); ("name", "O'Neil")]
                   (clean_state empty_tables 4))) "webs" =
    [[("ID", "4"); ("name", "O'Neil")]].
Proof.
  assert (Hnf : no_faults (clean_state empty_tables 4)) by (intros n; reflexivity).
  split; [exact Hnf|].
  rewrite (proj1 (proj2 (insert_data_to_table_appends_record "webs" [("ID", "9"); ("name", "O'Neil")] _ Hnf
                           ltac:(simpl; discriminate)))).
  reflexivity.
Defined.


Lemma customers_empty_input_clears_table_witness :
  no_faults (clean_state customers_before 3) /\
  st_store (snd (update_customer_data [] (clean_state customers_before 3))) "customers" = [] /\
  st_cache (snd (update_customer_data [] (clean_state customers_before 3))) "customers" =
    customers_before "customers".
Proof.
  assert (Hnf : no_faults (clean_state customers_before 3)) by (intros n; reflexivity).
  destruct (customers_empty_input_clears_table _ Hnf) as (_ & _ & G3 & _ & G5).
  split; [exact Hnf|]. split; [exact G3|]. rewrite G5. reflexivity.
Defined.

Lemma update_customer_data_refresh_witness :
  no_faults (clean_state customers_before 3) /\
  [[("L", "Y"); ("NAME", "O'Hara Clinic"); ("ID", "12"); ("STACKNUMBER", "7")]] <> [] /\
  Forall (fun c => exists l name cid sn, customer_fields c l name cid sn /\
                   quote_free cid /\ quote_free sn)
    [[("L", "Y"); ("NAME", "O'Hara Clinic"); ("ID", "12"); ("STACKNUMBER", "7")]] /\
  st_cache (snd (update_customer_data
                   [[("L", "Y"); ("NAME", "O'Hara Clinic"); ("ID", "12"); ("STACKNUMBER", "7")]]
                   (clean_state customers_before 3))) "customers" =
  st_store (snd (update_customer_data
                   [[("L", "Y"); ("NAME", "O'Hara Clinic"); ("ID", "12"); ("STACKNUMBER", "7")]]
                   (clean_state customers_before 3))) "customers".
Proof.
  assert (Hnf : no_faults (clean_state customers_before 3)) by (intros n; reflexivity).
  assert (Hne : [[("L", "Y"); ("NAME", "O'Hara Clinic"); ("ID", "12"); ("STACKNUMBER", "7")]] <> [])
    by discriminate.
  assert (Hc : Forall (fun c => exists l name cid sn, customer_fields c l name cid sn /\
                   quote_free cid /\ quote_free sn)
    [[("L", "Y"); ("NAME", "O'Hara Clinic"); ("ID", "12"); ("STACKNUMBER", "7")]]).
  { constructor; [|constructor]. exists "Y", "O'Hara Clinic", "12", "7".
    split; [repeat split|split; reflexivity]. }
  split; [exact Hnf|]. split; [discriminate|]. split; [exact Hc|].
  exact (proj1 (proj2 (proj2 (update_customer_data_refresh _ _ Hnf Hne Hc)))).
Defined.

Lemma format_sannav_activezones_witness :
  fst (__format_sannav_insert_data sw_port "7" (clean_state sannav_ready_tables 10)) =
    Ok (sw_port_row, [[("runid", "7"); ("sannaventityid", "101"); ("zoneid", "6")]]) /\
  exists zones port_id,
    sp_activeZones sw_port = Some zones /\
    lookup "runid" sw_port_row = Some "7" /\ lookup "id" sw_port_row = Some port_id /\
    Forall2 (fun z r => exists zr rest zid,
               key_rows "name" z (st_cache (clean_state sannav_ready_tables 10) "zone") = zr :: rest /\
               lookup "ID" zr = Some zid /\
               r = [("runid", "7"); ("sannaventityid", port_id); ("zoneid", zid)])
            zones [[("runid", "7"); ("sannaventityid", "101"); ("zoneid", "6")]].
Proof.
  assert (H : fst (__format_sannav_insert_data sw_port "7" (clean_state sannav_ready_tables 10)) =
              Ok (sw_port_row, [[("runid", "7"); ("sannaventityid", "101"); ("zoneid", "6")]]))
    by (vm_compute; reflexivity).
  split; [exact H|].
  exact (format_sannav_activezones _ _ _ _ H).
Defined.

Lemma get_runid_inserts_run_then_raises_witness :
  no_faults (clean_state earlier_run_tables 8) /\
  fst (__get_runid (clean_state earlier_run_tables 8)) = Raise DbError /\
  st_store (snd (__get_runid (clean_state earlier_run_tables 8))) "run" =
    [[("ID", "3"); ("capturedatetime", "2026-01-01 00:00:00")];
     [("ID", "8"); ("capturedatetime", "2026-01-01 00:00:00")]].
Proof.
  assert (Hnf : no_faults (clean_state earlier_run_tables 8)) by (intros n; reflexivity).
  destruct (get_runid_inserts_run_then_raises _ Hnf) as (G1 & G2 & _).
  split; [exact Hnf|]. split; [exact G1|].
  rewrite G2. reflexivity.
Defined.

Lemma open_connection_automated_witness :
  lookup "WinUsername" [("WinUsername", "svc"); ("HOME", "/root")] = Some "svc" /\
  open_connection true [("WinUsername", "svc"); ("HOME", "/root")] "admin" "pw" "srv" "db" "drv" "yes" None =
    ([], Raise (SystemExit "No password is set in WinPassword for user: svc. Terminating function update_data_from_sources.")).
Proof.
  assert (Hu : lookup "WinUsername" [("WinUsername", "svc"); ("HOME", "/root")] = Some "svc")
    by reflexivity.
  split; [exact Hu|].
  apply (proj1 (open_connection_automated _ _ "admin" "pw" "srv" "db" "drv" "yes" None Hu)).
  reflexivity.
Defined.

Lemma connect_ms_sql_credentials_witness :
  __connect_ms_sql "admin" "" "srv" "db" "drv" "yes" None = __connect_ms_sql "" "" "srv" "db" "drv" "yes" None /\
  In "Connection string used for connecting: Driver=drv;Server=srv;Database=db;UID=admin;PWD=pw;TrustServerCertificate=yes"
     (fst (__connect_ms_sql "admin" "pw" "srv" "db" "drv" "yes" None)) /\
  snd (__connect_ms_sql "admin" "pw" "srv" "db" "drv" "yes" (Some ResourceWarning)) = Raise UnboundLocalError.
Proof.
  split; [apply (connect_ms_sql_credentials "admin" "" "srv" "db" "drv" "yes" None); right; reflexivity|].
  split; [apply (connect_ms_sql_credentials "admin" "pw" "srv" "db" "drv" "yes" None); discriminate|].
  apply (connect_ms_sql_credentials "admin" "pw" "srv" "db" "drv" "yes" (Some ResourceWarning)).
  reflexivity.
Defined.

Lemma load_table_caches_never_completes_witness :
  (forall n, st_fault (clean_state sannav_ready_tables 1) n = None \/
             st_fault (clean_state sannav_ready_tables 1) n = Some ResourceWarning) /\
  st_store (snd (load_table_caches (clean_state sannav_ready_tables 1))) = sannav_ready_tables /\
  fst (load_table_caches (clean_state sannav_ready_tables 1)) = Raise DbError /\
  st_cache (snd (load_table_caches (clean_state sannav_ready_tables 1))) "switch" =
    sannav_ready_tables "switch".
Proof.
  assert (Hrw : forall n, st_fault (clean_state sannav_ready_tables 1) n = None \/
                          st_fault (clean_state sannav_ready_tables 1) n = Some ResourceWarning)
    by (intros n; left; reflexivity).
  destruct (load_table_caches_never_completes _ Hrw) as [Hs [(e & _ & He & Hc)|He]].
  - split; [exact Hrw|]. split; [exact Hs|]. split; [vm_compute; reflexivity|].
    apply Hc. simpl. repeat (first [left; reflexivity | right]).
  - exfalso. vm_compute in He. discriminate He.
Defined.
